(** * KDFoundation: Win32PlatformEventLoop

    A shallow embedding of
    [src/KDFoundation/platform/win32/win32_platform_event_loop.cpp]
    together with the part of [event.h] it uses, and the properties of the
    notifier registry, the readiness dispatch and the wait/wake cycle.

    The loop object is a record; its methods are programs of a small
    monad whose effects are the Win32, Winsock, logging and postman calls
    the source makes.  A program is run against an arbitrary environment
    that answers each call, so every theorem below holds whatever the
    operating system answers, unless a hypothesis says otherwise. *)

From stdpp Require Import base option gmap strings.
From Stdlib Require Import ZArith String List Lia.
Import ListNotations.

Local Open Scope Z_scope.

(** ** Constants of the Windows SDK headers *)

Definition WM_USER : Z := 1024.          (* 0x0400 *)
Definition WM_QUIT : Z := 18.            (* 0x0012 *)
Definition PM_REMOVE : Z := 1.
Definition QS_ALLINPUT : Z := 1279.      (* 0x04FF *)
Definition INFINITE : Z := 4294967295.   (* 0xFFFFFFFF *)
Definition WAIT_OBJECT_0 : Z := 0.
Definition WAIT_TIMEOUT : Z := 258.
Definition HWND_MESSAGE : Z := -3.
Definition GWLP_USERDATA : Z := -21.

Definition FD_READ : Z := 1.
Definition FD_WRITE : Z := 2.
Definition FD_OOB : Z := 4.
Definition FD_ACCEPT : Z := 8.
Definition FD_CONNECT : Z := 16.
Definition FD_CLOSE : Z := 32.

(** [enum { WM_KD_SOCKETEVENT = WM_USER }] *)
Definition WM_KD_SOCKETEVENT : Z := WM_USER.

Definition s_msgWindowClassName : string := "Win32PlatformEventLoop_msgWindow".

(** Handles are integers; the null handle is 0. *)
Definition HANDLE := Z.
Definition HWND := Z.
Definition NULL : Z := 0.

Definition LOWORD (l : Z) : Z := Z.land l 65535.
Definition HIWORD (l : Z) : Z := Z.land (Z.shiftr l 16) 65535.
Definition WSAGETSELECTEVENT (lparam : Z) : Z := LOWORD lparam.
Definition WSAGETSELECTERROR (lparam : Z) : Z := HIWORD lparam.

(** Conversion to a 32-bit [int] (of a [WPARAM]) and to a [DWORD]. *)
Definition to_int (x : Z) : Z := (x + 2147483648) mod 4294967296 - 2147483648.
Definition to_DWORD (x : Z) : Z := x mod 4294967296.

Record MSG := mkMSG {
  hwnd : HWND;
  message : Z;
  wParam : Z;
  lParam : Z
}.

(** ** event.h *)

Module Event.

Inductive Type_ :=
| Invalid | Timer | PostedEvent | Notifier | Quit | Resize
| MousePress | MouseRelease | MouseDoubleClick | MouseMove | MouseWheel
| KeyPress | KeyRelease | TextInput | Update | UserType.

Definition code (t : Type_) : Z :=
  match t with
  | Invalid => 0 | Timer => 1 | PostedEvent => 2 | Notifier => 3
  | Quit => 4 | Resize => 5 | MousePress => 6 | MouseRelease => 7
  | MouseDoubleClick => 8 | MouseMove => 9 | MouseWheel => 10
  | KeyPress => 11 | KeyRelease => 12 | TextInput => 13 | Update => 14
  | UserType => 4096
  end.

Record t := mk {
  m_type : Type_;
  m_systemEvent : bool;
  m_accepted : bool;
  m_postedToEventQueue : bool
}.

(** [explicit Event(Type type)] *)
Definition new (type : Type_) : t := mk type false false false.

Definition type (e : t) : Type_ := m_type e.
Definition isSystemEvent (e : t) : bool := m_systemEvent e.
Definition isManualEvent (e : t) : bool := negb (m_systemEvent e).
Definition isAccepted (e : t) : bool := m_accepted e.

End Event.

(** [NotifierEvent() : Event(Event::Type::Notifier)] *)
Definition NotifierEvent : Event.t := Event.new Event.Notifier.

(** ** Observers: FileDescriptorNotifier

    The loop uses three things of an observer: its address (a pointer,
    possibly null), [fileDescriptor()] and [type()]. *)

(** Modelled from the spec: the enum is declared in
    [file_descriptor_notifier.h], which is not among the sources.  The three
    interest kinds index the slots of a record; Read is 0, Write is 1 and
    Exception is 2, as the comments of [handleSocketMessage] say. *)
Inductive NotificationType := Read | Write | Exception.

(** [static_cast<size_t>(type)] *)
Definition static_cast_size_t (type : NotificationType) : nat :=
  match type with
  | Read => 0
  | Write => 1
  | Exception => 2
  end%nat.

Record FileDescriptorNotifier := mkNotifier {
  addr : positive;
  fileDescriptor : Z;
  type : NotificationType
}.

(** A [FileDescriptorNotifier *]: [None] is the null pointer. *)
Abbreviation notifier_ptr := (option FileDescriptorNotifier).

(** The truth value of a pointer in a condition: [if (p)]. *)
Definition nonnull {A} (p : option A) : bool :=
  match p with Some _ => true | None => false end.

(** The truth value of a handle or an integer in a condition. *)
Definition nonzero (x : Z) : bool := negb (x =? 0).

Definition Postman := positive.

(** ** NotifierSet: three slots per descriptor

    The struct is used through [events[i]] for i = 0, 1, 2 and [isEmpty()]. *)

Record NotifierSet := mkNotifierSet {
  events0 : notifier_ptr;
  events1 : notifier_ptr;
  events2 : notifier_ptr
}.

(** A value-initialised [NotifierSet], what [m_notifiers[fd]] inserts for a
    descriptor the map has no record of. *)
Definition NotifierSet_default : NotifierSet := mkNotifierSet None None None.

(** [notifierSet.events[idx]]; the source only uses the indices 0, 1 and 2. *)
Definition events (ns : NotifierSet) (idx : nat) : notifier_ptr :=
  match idx with
  | 0 => events0 ns
  | 1 => events1 ns
  | 2 => events2 ns
  | _ => None
  end%nat.

(** [notifierSet.events[idx] = p] *)
Definition set_events (ns : NotifierSet) (idx : nat) (p : notifier_ptr)
  : NotifierSet :=
  match idx with
  | 0 => mkNotifierSet p (events1 ns) (events2 ns)
  | 1 => mkNotifierSet (events0 ns) p (events2 ns)
  | 2 => mkNotifierSet (events0 ns) (events1 ns) p
  | _ => ns
  end%nat.

(** Modelled from the spec: [NotifierSet::isEmpty] is declared in the header
    of the loop, which is not among the sources; a record is empty when all
    three slots are empty. *)
Definition isEmpty (ns : NotifierSet) : bool :=
  negb (nonnull (events0 ns) || nonnull (events1 ns) || nonnull (events2 ns)).

(** ** The calls the loop makes, and programs over them *)

Inductive level := warn | error | critical.

Inductive sysE : Type -> Type :=
| CreateEvent (bManualReset bInitialState : bool) : sysE HANDLE
| RegisterClass (lpszClassName : string) : sysE Z
| GetModuleHandle0 : sysE HANDLE          (* GetModuleHandle(0) *)
| CreateWindow (lpClassName : string) (hWndParent : HWND) (hInstance : HANDLE)
    : sysE HWND
| SetWindowLongPtr (hWnd : HWND) (nIndex : Z) : sysE unit
| GetWindowLongPtr (hWnd : HWND) (nIndex : Z) : sysE Z
| PeekMessage (wRemoveMsg : Z) : sysE (option MSG)
| MsgWaitForMultipleObjects
    (nCount : Z) (pHandles : list HANDLE) (fWaitAll : bool)
    (dwMilliseconds : Z) (dwWakeMask : Z) : sysE Z
| ResetEvent (hEvent : HANDLE) : sysE bool
| SetEvent (hEvent : HANDLE) : sysE bool
| TranslateMessage (msg : MSG) : sysE unit
| DispatchMessage (msg : MSG) : sysE unit
| DefWindowProc (hWnd : HWND) (msgId wp lp : Z) : sysE Z
| WSAAsyncSelect (s : Z) (hWnd : HWND) (wMsg : Z) (lEvent : Z) : sysE Z
| deliverEvent (postman : Postman) (target : FileDescriptorNotifier) (ev : Event.t)
    : sysE unit
| spdlog (lvl : level) (fmt : string) (args : list Z) : sysE unit.

(** A program either returns, makes a call and goes on with its answer, or
    stops on a failed [assert]. *)
Inductive Prog (R : Type) : Type :=
| Ret (r : R)
| Vis {X : Type} (e : sysE X) (k : X -> Prog R)
| Abort.

Arguments Ret {R} r.
Arguments Vis {R X} e k.
Arguments Abort {R}.

Fixpoint bind {A B : Type} (p : Prog A) (f : A -> Prog B) : Prog B :=
  match p with
  | Ret a => f a
  | Vis e k => Vis e (fun x => bind (k x) f)
  | Abort => Abort
  end.

Definition call {X : Type} (e : sysE X) : Prog X := Vis e Ret.

Declare Scope prog_scope.
Delimit Scope prog_scope with prog.
Notation "x <- c ;; k" := (bind c (fun x => k))
  (at level 100, c at next level, right associativity) : prog_scope.
Notation "c ;; k" := (bind c (fun _ => k))
  (at level 100, right associativity) : prog_scope.
Local Open Scope prog_scope.

(** [assert(cond)]: nothing when the build defines NDEBUG. *)
Definition assert (NDEBUG : bool) (cond : bool) : Prog unit :=
  if NDEBUG then Ret tt else if cond then Ret tt else Abort.

(** *** Running a program against an environment *)

Record Env := mkEnv {
  World : Type;
  answer : forall X : Type, sysE X -> World -> X * World
}.

(** One performed call with the answer it got. *)
Inductive Call : Type :=
| Called : forall X : Type, sysE X -> X -> Call.

Arguments Called {X} e x.

Record Outcome (E : Env) (R : Type) := mkOutcome {
  trace : list Call;
  world : World E;
  result : option R          (* [None]: stopped on a failed assertion *)
}.

Arguments mkOutcome {E R}.
Arguments trace {E R}.
Arguments world {E R}.
Arguments result {E R}.

Fixpoint run {R : Type} (E : Env) (p : Prog R) (w : World E) : Outcome E R :=
  match p with
  | Ret r => mkOutcome [] w (Some r)
  | Vis e k =>
      let xw := answer E _ e w in
      let o := run E (k (fst xw)) (snd xw) in
      mkOutcome (Called e (fst xw) :: trace o) (world o) (result o)
  | Abort => mkOutcome [] w None
  end.

(** ** The loop object *)

(** Modelled from the spec: the members are declared in the header of the
    loop and in its base class, which are not among the sources.  The
    registry maps a descriptor to its record and is used through the
    subscript operator and [erase] of the standard maps; the handles come
    from the constructor; the postman is a borrowed pointer, null until
    [setPostman]. *)
Record Win32PlatformEventLoop := mkLoop {
  m_notifiers : gmap Z NotifierSet;
  m_wakeUpEvent : HANDLE;
  m_msgWindow : HWND;
  m_postman : option Postman
}.

Definition with_notifiers (l : Win32PlatformEventLoop) (m : gmap Z NotifierSet)
  : Win32PlatformEventLoop :=
  mkLoop m (m_wakeUpEvent l) (m_msgWindow l) (m_postman l).

Definition setPostman (postman : option Postman) (l : Win32PlatformEventLoop)
  : Win32PlatformEventLoop :=
  mkLoop (m_notifiers l) (m_wakeUpEvent l) (m_msgWindow l) postman.

(** [m_notifiers[fd]]: the subscript operator of the map.  It yields the
    record of [fd], and inserts a value-initialised record first when the
    map has none. *)
Definition subscript (m : gmap Z NotifierSet) (fd : Z)
  : NotifierSet * gmap Z NotifierSet :=
  match m !! fd with
  | Some ns => (ns, m)
  | None => (NotifierSet_default, <[fd := NotifierSet_default]> m)
  end.

(** The constructor.  [SetWindowLongPtr] stores the address of the loop in
    the window; the loop reaches itself through it in [messageWindowProc]. *)
Definition Win32PlatformEventLoop_new : Prog Win32PlatformEventLoop :=
  wakeUpEvent <- call (CreateEvent true false);;
  (if nonzero wakeUpEvent then Ret tt
   else call (spdlog critical "Failed to create wake up event" []));;
  atom <- call (RegisterClass s_msgWindowClassName);;
  (if nonzero atom then Ret tt
   else call (spdlog critical "Failed to register message window class" []));;
  hInstance <- call GetModuleHandle0;;
  msgWindow <- call (CreateWindow s_msgWindowClassName HWND_MESSAGE hInstance);;
  (if nonzero msgWindow then Ret tt
   else call (spdlog critical "Failed to create window for socket events" []));;
  call (SetWindowLongPtr msgWindow GWLP_USERDATA);;
  Ret (mkLoop ∅ wakeUpEvent msgWindow None).

(** *** waitForEvents and wakeUp *)

(** The last step of [waitForEvents], for a message taken off the queue. *)
Definition dispatch (msg : MSG) : Prog unit :=
  if message msg =? WM_QUIT then
    Ret tt                           (* TODO: close all windows *)
  else
    call (TranslateMessage msg);;
    call (DispatchMessage msg).

Definition waitForEvents (NDEBUG : bool) (timeout : Z) (l : Win32PlatformEventLoop)
  : Prog unit :=
  hasMessage <- call (PeekMessage PM_REMOVE);;
  hasMessage <-
    match hasMessage with
    | Some msg => Ret (Some msg)
    | None =>
        (* sleep until we get a message or the wake up event is signaled *)
        let nCount := if nonzero (m_wakeUpEvent l) then 1 else 0 in
        let pHandles := if nonzero (m_wakeUpEvent l) then [m_wakeUpEvent l] else [] in
        let dwTimeout := if timeout =? -1 then INFINITE else to_DWORD timeout in
        waitRet <- call (MsgWaitForMultipleObjects nCount pHandles false dwTimeout QS_ALLINPUT);;
        if waitRet =? WAIT_OBJECT_0 then
          (* wake up event was signaled *)
          assert NDEBUG (nonzero (m_wakeUpEvent l));;
          call (ResetEvent (m_wakeUpEvent l));;
          Ret None
        else
          (* either there's a message in the input queue or we timed out *)
          call (PeekMessage PM_REMOVE)
    end;;
  match hasMessage with
  | Some msg => dispatch msg
  | None => Ret tt
  end.

Definition wakeUp (l : Win32PlatformEventLoop) : Prog unit :=
  if nonzero (m_wakeUpEvent l) then
    ok <- call (SetEvent (m_wakeUpEvent l));;
    if ok then Ret tt
    else call (spdlog critical "Failed to signal wake up event" [])
  else Ret tt.

(** *** The readiness subscription adapter *)

Definition typeToWsaEvents (type : NotificationType) : Z :=
  match type with
  | Read => Z.lor (Z.lor FD_READ FD_CLOSE) FD_ACCEPT
  | Write => Z.lor FD_WRITE FD_CONNECT
  | Exception => FD_OOB
  end.

(** The loop over [types] that builds the mask. *)
Definition eventsToSubscribe (notifiers : NotifierSet) : Z :=
  fold_left
    (fun acc type =>
       if nonnull (events notifiers (static_cast_size_t type))
       then Z.lor acc (typeToWsaEvents type)
       else acc)
    [Read; Write; Exception] 0.

Definition registerWithWSAAsyncSelect
  (l : Win32PlatformEventLoop) (fd : Z) (notifiers : NotifierSet) : Prog bool :=
  result <- call (WSAAsyncSelect fd (m_msgWindow l) WM_KD_SOCKETEVENT
                    (eventsToSubscribe notifiers));;
  if nonzero result then
    call (spdlog error "Failed to register notifier for socket = {}. Error = {}"
            [fd; result]);;
    Ret false
  else Ret true.

(** *** registerNotifier and unregisterNotifier *)

Definition registerNotifier (notifier : notifier_ptr) (l : Win32PlatformEventLoop)
  : Prog (bool * Win32PlatformEventLoop) :=
  match notifier with
  | None => Ret (false, l)
  | Some n =>
      if fileDescriptor n <? 0 then
        call (spdlog warn "Attempting to register invalid notifier socket = {}"
                [fileDescriptor n]);;
        Ret (false, l)
      else
        let fd := fileDescriptor n in
        let '(notifierSet, m) := subscript (m_notifiers l) fd in
        let backup := notifierSet in
        let eventTypeIdx := static_cast_size_t (type n) in
        (* Check if already registered for this type *)
        if nonnull (events notifierSet eventTypeIdx) then
          Ret (false, with_notifiers l m)
        else
          let notifierSet := set_events notifierSet eventTypeIdx (Some n) in
          let m := <[fd := notifierSet]> m in
          registered <- registerWithWSAAsyncSelect l fd notifierSet;;
          if registered then Ret (registered, with_notifiers l m)
          else
            (* registration failed. Restore previous state and clean up *)
            registerWithWSAAsyncSelect l fd backup;;
            let notifierSet := backup in
            let m := <[fd := notifierSet]> m in
            let m := if isEmpty notifierSet then delete fd m else m in
            Ret (registered, with_notifiers l m)
  end.

Definition unregisterNotifier (notifier : notifier_ptr) (l : Win32PlatformEventLoop)
  : Prog (bool * Win32PlatformEventLoop) :=
  match notifier with
  | None => Ret (false, l)
  | Some n =>
      let fd := fileDescriptor n in
      let eventTypeIdx := static_cast_size_t (type n) in
      let '(notifierSet, m) := subscript (m_notifiers l) fd in
      if nonnull (events notifierSet eventTypeIdx) then
        let notifierSet := set_events notifierSet eventTypeIdx None in
        let m := <[fd := notifierSet]> m in
        registerWithWSAAsyncSelect l fd notifierSet;;
        let m := if isEmpty notifierSet then delete fd m else m in
        Ret (true, with_notifiers l m)
      else
        Ret (false, with_notifiers l m)
  end.

(** *** Readiness dispatch *)

(** What a case of the [switch] does with slot [i]. *)
Definition deliverSlot (postman : Postman) (notifierSet : NotifierSet) (i : nat)
  : Prog unit :=
  match events notifierSet i with
  | Some target => call (deliverEvent postman target NotifierEvent)
  | None => Ret tt
  end.

(** The [switch (op)] of [handleSocketMessage]. *)
Definition switch_op (postman : Postman) (notifierSet : NotifierSet) (op : Z)
  : Prog unit :=
  if (op =? FD_READ) || (op =? FD_CLOSE) || (op =? FD_ACCEPT) then
    deliverSlot postman notifierSet 0     (* read event *)
  else if (op =? FD_WRITE) || (op =? FD_CONNECT) then
    deliverSlot postman notifierSet 1     (* write event *)
  else if op =? FD_OOB then
    deliverSlot postman notifierSet 2     (* exception event *)
  else Ret tt.

Definition handleSocketMessage (wparam lparam : Z) (l : Win32PlatformEventLoop)
  : Prog Win32PlatformEventLoop :=
  let sockId := to_int wparam in
  let err := WSAGETSELECTERROR lparam in
  let op := WSAGETSELECTEVENT lparam in
  if nonzero err then
    call (spdlog warn "Error when receiving message on socket {}, Err = {}"
            [sockId; err]);;
    Ret l
  else
    match m_postman l with
    | None =>
        call (spdlog warn "No postman set. Cannot deliver events" []);;
        Ret l
    | Some postman =>
        let '(notifierSet, m) := subscript (m_notifiers l) sockId in
        switch_op postman notifierSet op;;
        Ret (with_notifiers l m)
    end.

(** The window procedure of the message window.  On every message it reads
    back from the window the address that [SetWindowLongPtr] stored there;
    [heap] gives the loop object at an address.  The pointer is used for the
    socket message only.  Calling through a pointer at which there is no
    loop (a null pointer, say) is undefined; the program stops there. *)
Definition messageWindowProc
  (heap : gmap Z Win32PlatformEventLoop) (hwnd : HWND) (msgId wp lp : Z)
  : Prog (Z * gmap Z Win32PlatformEventLoop) :=
  loop <- call (GetWindowLongPtr hwnd GWLP_USERDATA);;
  if msgId =? WM_KD_SOCKETEVENT then
    match heap !! loop with
    | Some l =>
        l' <- handleSocketMessage wp lp l;;
        Ret (0, <[loop := l']> heap)
    | None => Abort
    end
  else
    r <- call (DefWindowProc hwnd msgId wp lp);;
    Ret (r, heap).

(** ** A scripted environment

    Its world lists the answers the operating system will give, call by
    call; a list that has run out answers as an idle, healthy system does. *)

Record Script := mkScript {
  createEvent_ret : HANDLE;
  peeks : list (option MSG);
  waits : list Z;
  selects : list Z
}.

Definition pop {A : Type} (d : A) (l : list A) : A * list A :=
  match l with
  | [] => (d, [])
  | x :: r => (x, r)
  end.

Definition script_answer (X : Type) (e : sysE X) (s : Script) : X * Script :=
  match e in sysE X return X * Script with
  | CreateEvent _ _ => (createEvent_ret s, s)
  | RegisterClass _ => (1, s)
  | GetModuleHandle0 => (4194304, s)
  | CreateWindow _ _ _ => (200, s)
  | SetWindowLongPtr _ _ => (tt, s)
  | GetWindowLongPtr _ _ => (0, s)
  | PeekMessage _ =>
      let '(x, r) := pop None (peeks s) in
      (x, mkScript (createEvent_ret s) r (waits s) (selects s))
  | MsgWaitForMultipleObjects _ _ _ _ _ =>
      let '(x, r) := pop WAIT_TIMEOUT (waits s) in
      (x, mkScript (createEvent_ret s) (peeks s) r (selects s))
  | ResetEvent h => (nonzero h, s)
  | SetEvent h => (nonzero h, s)
  | TranslateMessage _ => (tt, s)
  | DispatchMessage _ => (tt, s)
  | DefWindowProc _ _ _ _ => (0, s)
  | WSAAsyncSelect _ _ _ _ =>
      let '(x, r) := pop 0 (selects s) in
      (x, mkScript (createEvent_ret s) (peeks s) (waits s) r)
  | deliverEvent _ _ _ => (tt, s)
  | spdlog _ _ _ => (tt, s)
  end.

Definition scripted : Env := mkEnv Script script_answer.

(** An idle system on which every call succeeds. *)
Definition idle : Script := mkScript 100 [] [] [].

(** A loop as the constructor leaves it on the idle system. *)
Definition loop0 : Win32PlatformEventLoop := mkLoop ∅ 100 200 None.

(** ** Notions the properties are stated with *)

(** The registry holds no record whose three slots are all empty. *)
Definition no_empty_record (m : gmap Z NotifierSet) : Prop :=
  forall fd ns, m !! fd = Some ns -> isEmpty ns = false.

(** What the registry says of a descriptor: its record, or the empty
    record when it has none. *)
Definition interest (m : gmap Z NotifierSet) (fd : Z) : NotifierSet :=
  default NotifierSet_default (m !! fd).

(** The subscription call [registerWithWSAAsyncSelect] makes for a record. *)
Definition subscribe_call (l : Win32PlatformEventLoop) (fd : Z) (ns : NotifierSet)
  : sysE Z :=
  WSAAsyncSelect fd (m_msgWindow l) WM_KD_SOCKETEVENT (eventsToSubscribe ns).

(** The line the adapter logs when the subscription call answers [r]. *)
Definition subscribe_log (fd r : Z) : list Call :=
  if nonzero r then
    [Called (spdlog error "Failed to register notifier for socket = {}. Error = {}"
               [fd; r]) tt]
  else [].

Definition is_DispatchMessage (c : Call) : bool :=
  match c with
  | Called (DispatchMessage _) _ => true
  | _ => false
  end.

Definition is_deliverEvent (c : Call) : bool :=
  match c with
  | Called (deliverEvent _ _ _) _ => true
  | _ => false
  end.

Definition count (f : Call -> bool) (t : list Call) : nat := length (List.filter f t).

(** *** Concrete inputs *)

(** Two observers of descriptor 5, both with interest Read. *)
Definition reader5 : FileDescriptorNotifier := mkNotifier 1 5 Read.
Definition reader5' : FileDescriptorNotifier := mkNotifier 2 5 Read.

(** The loop after [reader5] was registered. *)
Definition loop_reader5 : Win32PlatformEventLoop :=
  mkLoop {[ 5 := mkNotifierSet (Some reader5) None None ]} 100 200 None.

(** A system on which the next two subscription calls fail (SOCKET_ERROR). *)
Definition failing_select : Script := mkScript 100 [] [] [-1; -1].

(** A system with an empty queue on which the next wait is ended by the
    wake-up event. *)
Definition woken : Script := mkScript 100 [None] [WAIT_OBJECT_0] [].

(** A system that cannot create the wake-up event; its queue is empty at
    first, and input arrives during the next wait.  On no handles that
    wait answers [WAIT_OBJECT_0 + 0]. *)
Definition no_wake_event : Script := mkScript NULL [None] [WAIT_OBJECT_0 + 0] [].

(** The loop the constructor builds on that system. *)
Definition degraded_loop : Win32PlatformEventLoop := mkLoop ∅ NULL 200 None.

(** *** The policy of the specification

    The low-level conditions the operating system reports, the code of each
    and the interest kind the specification assigns it to. *)

Inductive Condition :=
| ReadReady | PeerClosed | IncomingConnection
| WriteReady | ConnectionEstablished
| OutOfBandData.

Definition conditionCode (c : Condition) : Z :=
  match c with
  | ReadReady => FD_READ
  | PeerClosed => FD_CLOSE
  | IncomingConnection => FD_ACCEPT
  | WriteReady => FD_WRITE
  | ConnectionEstablished => FD_CONNECT
  | OutOfBandData => FD_OOB
  end.

Definition kindOf (c : Condition) : NotificationType :=
  match c with
  | ReadReady | PeerClosed | IncomingConnection => Read
  | WriteReady | ConnectionEstablished => Write
  | OutOfBandData => Exception
  end.

Definition conditions : list Condition :=
  [ReadReady; PeerClosed; IncomingConnection; WriteReady; ConnectionEstablished;
   OutOfBandData].

Definition NotificationType_eqb (a b : NotificationType) : bool :=
  match a, b with
  | Read, Read | Write, Write | Exception, Exception => true
  | _, _ => false
  end.

(** The mask the policy gives a kind: the codes of the conditions it covers. *)
Definition policyMask (k : NotificationType) : Z :=
  fold_right Z.lor 0
    (map conditionCode (List.filter (fun c => NotificationType_eqb (kindOf c) k) conditions)).

(** The condition a readiness message reports, if its code is one of the six. *)
Definition decodeCondition (op : Z) : option Condition :=
  find (fun c => op =? conditionCode c) conditions.

(** What readiness dispatch hands to the sink for a message whose error code
    is zero: the observer in the slot of the kind of the reported condition. *)
Definition delivery (postman : Postman) (ns : NotifierSet) (op : Z) : list Call :=
  match decodeCondition op with
  | Some c =>
      match events ns (static_cast_size_t (kindOf c)) with
      | Some target => [Called (deliverEvent postman target NotifierEvent) tt]
      | None => []
      end
  | None => []
  end.

(** *** The wait of the loop, as the Win32 documentation reads its answer

    [MsgWaitForMultipleObjects] on [nCount] handles answers
    [WAIT_OBJECT_0 + i] when handle [i] is signaled,
    [WAIT_OBJECT_0 + nCount] when the queue has input, and [WAIT_TIMEOUT]
    when the time is up. *)

Inductive WaitOutcome := SignalFired | QueueActivity | TimedOut | WaitOther.

Definition wait_outcome (nCount ret : Z) : WaitOutcome :=
  if (WAIT_OBJECT_0 <=? ret) && (ret <? WAIT_OBJECT_0 + nCount) then SignalFired
  else if ret =? WAIT_OBJECT_0 + nCount then QueueActivity
  else if ret =? WAIT_TIMEOUT then TimedOut
  else WaitOther.

(** [dwTimeout] of [waitForEvents]. *)
Definition dwTimeout (timeout : Z) : Z :=
  if timeout =? -1 then INFINITE else to_DWORD timeout.

(** The wait [waitForEvents] makes: over the wake-up event, when the loop
    has one, and the queue. *)
Definition wait_call (l : Win32PlatformEventLoop) (timeout : Z) : sysE Z :=
  MsgWaitForMultipleObjects
    (if nonzero (m_wakeUpEvent l) then 1 else 0)
    (if nonzero (m_wakeUpEvent l) then [m_wakeUpEvent l] else [])
    false (dwTimeout timeout) QS_ALLINPUT.

Definition poll : sysE (option MSG) := PeekMessage PM_REMOVE.

(** The calls of the dispatch step for a message. *)
Definition dispatch_trace (msg : MSG) : list Call :=
  if message msg =? WM_QUIT then []
  else [Called (TranslateMessage msg) tt; Called (DispatchMessage msg) tt].

Definition dispatch_trace_opt (m : option MSG) : list Call :=
  match m with
  | Some msg => dispatch_trace msg
  | None => []
  end.

(** What readiness dispatch does with a message, case by case as the
    specification lists them: a logged drop on an error code, a logged drop
    without a sink, and otherwise the delivery above. *)
Definition readiness_trace (l : Win32PlatformEventLoop) (sockId err op : Z)
  : list Call :=
  if nonzero err then
    [Called (spdlog warn "Error when receiving message on socket {}, Err = {}"
               [sockId; err]) tt]
  else
    match m_postman l with
    | None => [Called (spdlog warn "No postman set. Cannot deliver events" []) tt]
    | Some postman => delivery postman (interest (m_notifiers l) sockId) op
    end.

(** The message is one that reaches an observer: no error code, a sink, a
    known condition and an occupied slot for its kind. *)
Definition deliverable (l : Win32PlatformEventLoop) (sockId err op : Z) : bool :=
  (err =? 0) && nonnull (m_postman l) &&
  match decodeCondition op with
  | Some c =>
      nonnull (events (interest (m_notifiers l) sockId) (static_cast_size_t (kindOf c)))
  | None => false
  end.

(** *** Further notions on traces *)

Definition is_WSAAsyncSelect (c : Call) : bool :=
  match c with
  | Called (WSAAsyncSelect _ _ _ _) _ => true
  | _ => false
  end.

Definition is_spdlog (c : Call) : bool :=
  match c with
  | Called (spdlog _ _ _) _ => true
  | _ => false
  end.

Definition is_critical (c : Call) : bool :=
  match c with
  | Called (spdlog critical _ _) _ => true
  | _ => false
  end.

(** The descriptor and the mask of the last subscription call of a trace. *)
Definition last_subscription (t : list Call) : option (Z * Z) :=
  fold_left
    (fun acc c =>
       match c with
       | Called (WSAAsyncSelect s _ _ lEvent) _ => Some (s, lEvent)
       | _ => acc
       end)
    t None.

(** The call is not a [DispatchMessage] of a quit message. *)
Definition no_quit_dispatch (c : Call) : bool :=
  match c with
  | Called (DispatchMessage msg) _ => negb (message msg =? WM_QUIT)
  | _ => true
  end.

(** A system on which the first subscription call fails. *)
Definition failing_once : Script := mkScript 100 [] [] [-1].

(** A system whose wait times out on an empty queue. *)
Definition timing_out : Script := mkScript NULL [None] [WAIT_TIMEOUT] [].

(** A quit message, and a system that has one pending. *)
Definition quit_msg : MSG := mkMSG 0 WM_QUIT 0 0.
Definition quitting : Script := mkScript 100 [Some quit_msg] [] [].

(** The subscription calls made in world [w] all succeed. *)
Definition subscribes_ok (E : Env) (w : World E) : Prop :=
  forall s h m ev, fst (answer E Z (WSAAsyncSelect s h m ev) w) = 0.

(** ** Teardown and the window classes of the GUI integration

    The destructor of the loop and [Win32GuiPlatformIntegration] make calls
    of their own; programs over them are kept apart from those of the loop. *)

Definition IDC_ARROW : Z := 32512.
Definition IDI_APPLICATION : Z := 32512.
Definition IMAGE_ICON : Z := 1.
Definition LR_DEFAULTSIZE : Z := 64.     (* 0x0040 *)
Definition LR_SHARED : Z := 32768.       (* 0x8000 *)

(** The fields [registerWindowClass] sets; [cbSize], the size of the
    structure, is left out, and a window procedure is its address. *)
Record WNDCLASSEX := mkWNDCLASSEX {
  wc_style : Z;
  wc_lpfnWndProc : Z;
  wc_hInstance : HANDLE;
  wc_hCursor : HANDLE;
  wc_lpszClassName : string;
  wc_hIcon : HANDLE
}.

Inductive guiE : Type -> Type :=
| GetModuleHandle : guiE HANDLE
| LoadCursorW (lpCursorName : Z) : guiE HANDLE
| LoadImage (name type cx cy fuLoad : Z) : guiE HANDLE
| RegisterClassEx (wc : WNDCLASSEX) : guiE Z
| UnregisterClass (lpClassName : string) (hInstance : HANDLE) : guiE bool
| GetLastError : guiE Z
| CloseHandle (hObject : HANDLE) : guiE bool
| DestroyWindow (hWnd : HWND) : guiE bool
| gui_spdlog (lvl : level) (fmt : string) (args : list Z) : guiE unit.

Inductive GProg (R : Type) : Type :=
| GRet (r : R)
| GVis {X : Type} (e : guiE X) (k : X -> GProg R).

Arguments GRet {R} r.
Arguments GVis {R X} e k.

Fixpoint gbind {A B : Type} (p : GProg A) (f : A -> GProg B) : GProg B :=
  match p with
  | GRet a => f a
  | GVis e k => GVis e (fun x => gbind (k x) f)
  end.

Definition gcall {X : Type} (e : guiE X) : GProg X := GVis e GRet.

Declare Scope gprog_scope.
Delimit Scope gprog_scope with gprog.
Notation "x <- c ;; k" := (gbind c (fun x => k))
  (at level 100, c at next level, right associativity) : gprog_scope.
Notation "c ;; k" := (gbind c (fun _ => k))
  (at level 100, right associativity) : gprog_scope.

Record GEnv := mkGEnv {
  GWorld : Type;
  ganswer : forall X : Type, guiE X -> GWorld -> X * GWorld
}.

Inductive GCall : Type :=
| GCalled : forall X : Type, guiE X -> X -> GCall.

Arguments GCalled {X} e x.

Record GOutcome (E : GEnv) (R : Type) := mkGOutcome {
  gtrace : list GCall;
  gworld : GWorld E;
  gresult : R
}.

Arguments mkGOutcome {E R}.
Arguments gtrace {E R}.
Arguments gworld {E R}.
Arguments gresult {E R}.

Fixpoint grun {R : Type} (E : GEnv) (p : GProg R) (w : GWorld E) : GOutcome E R :=
  match p with
  | GRet r => mkGOutcome [] w r
  | GVis e k =>
      let xw := ganswer E _ e w in
      let o := grun E (k (fst xw)) (snd xw) in
      mkGOutcome (GCalled e (fst xw) :: gtrace o) (gworld o) (gresult o)
  end.

(** The destructor of the loop. *)
Definition Win32PlatformEventLoop_delete (l : Win32PlatformEventLoop) : GProg unit :=
  ((if nonzero (m_wakeUpEvent l)
    then (gcall (CloseHandle (m_wakeUpEvent l));; GRet tt)
    else GRet tt);;
   (if nonzero (m_msgWindow l)
    then (gcall (DestroyWindow (m_msgWindow l));; GRet tt)
    else GRet tt);;
   appInstance <- gcall GetModuleHandle;;
   ok <- gcall (UnregisterClass s_msgWindowClassName appInstance);;
   if ok then GRet tt
   else gcall (gui_spdlog warn "Failed to unregister message window class" []))%gprog.

(** [Win32GuiPlatformIntegration::registerWindowClass].

    Modelled from the spec: the member [m_windowClasses] is declared in the
    header of the integration, which is not among the sources; the code uses
    it as a set of class names ([find], [insert], [clear], iteration), and
    it is the finite set of the names registered so far. *)
Definition registerWindowClass
  (className : string) (style : Z) (windowProc : Z) (m_windowClasses : gset string)
  : GProg (bool * gset string) :=
  (if bool_decide (className ∈ m_windowClasses) then
     GRet (true, m_windowClasses)
   else
     appInstance <- gcall GetModuleHandle;;
     hCursor <- gcall (LoadCursorW IDC_ARROW);;
     hIcon <- gcall (LoadImage IDI_APPLICATION IMAGE_ICON 0 0
                       (Z.lor LR_DEFAULTSIZE LR_SHARED));;
     atom <- gcall (RegisterClassEx
                      (mkWNDCLASSEX style windowProc appInstance hCursor className hIcon));;
     (if nonzero atom then GRet tt
      else
        err <- gcall GetLastError;;
        gcall (gui_spdlog critical "Failed to register window class: {}" [err]));;
     GRet (nonzero atom, {[ className ]} ∪ m_windowClasses))%gprog.

(** The body of the loop of [unregisterWindowClasses], over the names in the
    order the container yields them. *)
Fixpoint unregisterEach (appInstance : HANDLE) (names : list string) : GProg unit :=
  match names with
  | [] => GRet tt
  | name :: rest =>
      (ok <- gcall (UnregisterClass name appInstance);;
       (if ok then GRet tt
        else
          err <- gcall GetLastError;;
          gcall (gui_spdlog critical "Failed to unregister class: {}" [err]));;
       unregisterEach appInstance rest)%gprog
  end.

(** [Win32GuiPlatformIntegration::unregisterWindowClasses]; the destructor of
    the integration does nothing else.  The order in which the set yields its
    names is that of [elements]; no property below depends on it. *)
Definition unregisterWindowClasses (m_windowClasses : gset string)
  : GProg (gset string) :=
  (appInstance <- gcall GetModuleHandle;;
   unregisterEach appInstance (elements m_windowClasses);;
   GRet ∅)%gprog.

(** The names, instance handles and answers of the [UnregisterClass] calls. *)
Definition unregistered (t : list GCall) : list (string * HANDLE * bool) :=
  flat_map
    (fun c =>
       match c with
       | GCalled (UnregisterClass name inst) ok => [(name, inst, ok)]
       | _ => []
       end) t.

Definition is_RegisterClassEx (c : GCall) : bool :=
  match c with
  | GCalled (RegisterClassEx _) _ => true
  | _ => false
  end.

Definition is_gui_critical (c : GCall) : bool :=
  match c with
  | GCalled (gui_spdlog critical _ _) _ => true
  | _ => false
  end.

Definition is_spdlog_gui (c : GCall) : bool :=
  match c with
  | GCalled (gui_spdlog _ _ _) _ => true
  | _ => false
  end.

(** The handles given to [CloseHandle], and those given to [DestroyWindow]. *)
Definition closed (t : list GCall) : list HANDLE :=
  flat_map
    (fun c =>
       match c with
       | GCalled (CloseHandle h) _ => [h]
       | _ => []
       end) t.

Definition destroyed (t : list GCall) : list HWND :=
  flat_map
    (fun c =>
       match c with
       | GCalled (DestroyWindow h) _ => [h]
       | _ => []
       end) t.

(** A scripted system for these calls: the atoms [RegisterClassEx] will
    answer, and the class names the system refuses to unregister. *)
Record GScript := mkGScript {
  atoms : list Z;
  refused : list string
}.

Definition gscript_answer (X : Type) (e : guiE X) (s : GScript) : X * GScript :=
  match e in guiE X return X * GScript with
  | GetModuleHandle => (4194304, s)
  | LoadCursorW _ => (65539, s)
  | LoadImage _ _ _ _ _ => (65541, s)
  | RegisterClassEx _ =>
      let '(x, r) := pop 49152 (atoms s) in (x, mkGScript r (refused s))
  | UnregisterClass name _ =>
      (negb (existsb (String.eqb name) (refused s)), s)
  | GetLastError => (1410, s)
  | CloseHandle h => (nonzero h, s)
  | DestroyWindow h => (nonzero h, s)
  | gui_spdlog _ _ _ => (tt, s)
  end.

Definition gscripted : GEnv := mkGEnv GScript gscript_answer.

(** A message for the message window: descriptor 5 is ready for reading. *)
Definition socket_msg : MSG := mkMSG 200 WM_KD_SOCKETEVENT 5 FD_READ.

(** A system that cannot create the wake-up event, with an empty queue at
    the first poll and [socket_msg] arriving during the wait: the wait, on no
    handles, answers [WAIT_OBJECT_0 + 0], and the next poll would find the
    message. *)
Definition input_during_wait : Script :=
  mkScript NULL [None; Some socket_msg] [WAIT_OBJECT_0 + 0] [].

(** The same arrival on a system that has the event: the wait, on one
    handle, answers [WAIT_OBJECT_0 + 1]. *)
Definition input_during_wait_with_event : Script :=
  mkScript 100 [None; Some socket_msg] [WAIT_OBJECT_0 + 1] [].

(** ** Running programs: general facts *)

Lemma run_bind (E : Env) {A B : Type} (p : Prog A) (f : A -> Prog B) (w : World E) :
  run E (bind p f) w =
  match result (run E p w) with
  | Some a =>
      let o := run E (f a) (world (run E p w)) in
      mkOutcome (trace (run E p w) ++ trace o) (world o) (result o)
  | None => mkOutcome (trace (run E p w)) (world (run E p w)) None
  end.
Proof.
  revert w; induction p as [r | X e k IH |]; intros w; simpl.
  - by destruct (run E (f r) w).
  - rewrite IH. by destruct (result (run E (k _) _)).
  - reflexivity.
Qed.

Lemma unit_answer (E : Env) (e : sysE unit) (w : World E) :
  fst (answer E unit e w) = tt.
Proof. by destruct (fst (answer E unit e w)). Qed.

Lemma with_notifiers_id (l : Win32PlatformEventLoop) :
  with_notifiers l (m_notifiers l) = l.
Proof. by destruct l. Qed.

Lemma events_default (i : nat) : events NotifierSet_default i = None.
Proof. by destruct i as [|[|[|?]]]. Qed.

Lemma subscript_interest (m : gmap Z NotifierSet) (fd : Z) :
  fst (subscript m fd) = interest m fd.
Proof. unfold subscript, interest. by destruct (m !! fd). Qed.

Lemma subscript_map (m : gmap Z NotifierSet) (fd : Z) :
  snd (subscript m fd) = <[fd := interest m fd]> m.
Proof.
  unfold subscript, interest. destruct (m !! fd) eqn:H; simpl; [|done].
  by rewrite insert_id.
Qed.

(** The adapter makes exactly one subscription call, logs when it fails
    and answers whether it succeeded. *)
Lemma run_registerWithWSAAsyncSelect (E : Env) l fd ns (w : World E) :
  let a := answer E Z (subscribe_call l fd ns) w in
  trace (run E (registerWithWSAAsyncSelect l fd ns) w)
    = Called (subscribe_call l fd ns) (fst a) :: subscribe_log fd (fst a) /\
  result (run E (registerWithWSAAsyncSelect l fd ns) w)
    = Some (negb (nonzero (fst a))).
Proof.
  unfold registerWithWSAAsyncSelect, subscribe_call, subscribe_log; simpl.
  destruct (nonzero (fst (answer E Z _ w))); simpl; [|done].
  by rewrite unit_answer.
Qed.

(** ** unregisterNotifier *)

(** A descriptor without a record: the subscript operator inserts an empty
    record, and the early return leaves it there. *)
Lemma unregisterNotifier_no_record (E : Env) (w : World E) l n :
  m_notifiers l !! fileDescriptor n = None ->
  run E (unregisterNotifier (Some n) l) w =
  mkOutcome [] w
    (Some (false,
           with_notifiers l (<[fileDescriptor n := NotifierSet_default]> (m_notifiers l)))).
Proof.
  intros H. unfold unregisterNotifier, subscript. rewrite H.
  by rewrite events_default.
Qed.

(** A record whose slot of that kind is empty: nothing changes. *)
Lemma unregisterNotifier_empty_slot (E : Env) (w : World E) l n ns :
  m_notifiers l !! fileDescriptor n = Some ns ->
  events ns (static_cast_size_t (type n)) = None ->
  run E (unregisterNotifier (Some n) l) w = mkOutcome [] w (Some (false, l)).
Proof.
  intros H H0. unfold unregisterNotifier, subscript. rewrite H, H0. simpl.
  by rewrite with_notifiers_id.
Qed.

Lemma unregisterNotifier_null (E : Env) (w : World E) l :
  run E (unregisterNotifier None l) w = mkOutcome [] w (Some (false, l)).
Proof. reflexivity. Qed.

(** The loop a successful unregisterNotifier leaves. *)
Lemma unregisterNotifier_occupied_result (E : Env) (w : World E) l n ns p :
  m_notifiers l !! fileDescriptor n = Some ns ->
  events ns (static_cast_size_t (type n)) = Some p ->
  let fd := fileDescriptor n in
  let ns' := set_events ns (static_cast_size_t (type n)) None in
  result (run E (unregisterNotifier (Some n) l) w) =
    Some (true,
          with_notifiers l
            (if isEmpty ns' then delete fd (m_notifiers l)
             else <[fd := ns']> (m_notifiers l))).
Proof.
  intros H H0 fd ns'. unfold unregisterNotifier, subscript.
  rewrite H, H0. cbn [nonnull]. fold fd ns'. rewrite run_bind.
  destruct (run_registerWithWSAAsyncSelect E l fd ns' w) as [_ Hr].
  cbv zeta in Hr. rewrite Hr. cbn [run trace result world].
  destruct (isEmpty ns'); [|done]. by rewrite delete_insert_eq.
Qed.

(** C7: when the slot of the observer's kind is occupied, unregisterNotifier
    clears it, makes one subscription call with the mask of the remaining
    slots, removes the record when it has become empty, and returns true
    whatever that call answers; a failed call is only logged. *)
Theorem unregisterNotifier_occupied (E : Env) (w : World E) l n ns p :
  m_notifiers l !! fileDescriptor n = Some ns ->
  events ns (static_cast_size_t (type n)) = Some p ->
  let fd := fileDescriptor n in
  let ns' := set_events ns (static_cast_size_t (type n)) None in
  let r := fst (answer E Z (subscribe_call l fd ns') w) in
  let o := run E (unregisterNotifier (Some n) l) w in
  trace o = Called (subscribe_call l fd ns') r :: subscribe_log fd r /\
  result o =
    Some (true,
          with_notifiers l
            (if isEmpty ns' then delete fd (m_notifiers l)
             else <[fd := ns']> (m_notifiers l))).
Proof.
  intros H H0 fd ns' r o.
  split; [|by apply (unregisterNotifier_occupied_result E w l n ns p)].
  subst o. unfold unregisterNotifier, subscript.
  rewrite H, H0. cbn [nonnull]. fold fd ns'. rewrite run_bind.
  destruct (run_registerWithWSAAsyncSelect E l fd ns' w) as [Ht Hr].
  cbv zeta in Ht, Hr. rewrite Hr, Ht. cbn [run trace result world].
  by rewrite app_nil_r.
Qed.

(** ** Records and their slots *)

Lemma isEmpty_default : isEmpty NotifierSet_default = true.
Proof. reflexivity. Qed.

Lemma occupied_not_empty ns i p : events ns i = Some p -> isEmpty ns = false.
Proof.
  destruct ns as [[?|] [?|] [?|]], i as [|[|[|?]]]; unfold isEmpty; simpl;
    intros; congruence.
Qed.

Lemma isEmpty_slots ns : isEmpty ns = true <-> forall i, events ns i = None.
Proof.
  split.
  - intros H i. destruct (events ns i) eqn:Hi; [|done].
    apply occupied_not_empty in Hi. congruence.
  - intros H. pose proof (H 0%nat) as H0. pose proof (H 1%nat) as H1.
    pose proof (H 2%nat) as H2. destruct ns; simpl in *. by subst.
Qed.

Lemma events_set_same ns (k : NotificationType) p :
  events (set_events ns (static_cast_size_t k) p) (static_cast_size_t k) = p.
Proof. by destruct k. Qed.

Lemma events_set_other ns (k k' : NotificationType) p :
  k <> k' ->
  events (set_events ns (static_cast_size_t k) p) (static_cast_size_t k')
  = events ns (static_cast_size_t k').
Proof. by destruct k, k'. Qed.

Lemma set_occupied_not_empty ns (k : NotificationType) n :
  isEmpty (set_events ns (static_cast_size_t k) (Some n)) = false.
Proof. eapply occupied_not_empty, events_set_same. Qed.

Lemma interest_lookup m fd ns : m !! fd = Some ns -> interest m fd = ns.
Proof. unfold interest. by intros ->. Qed.

Lemma interest_nonempty_lookup m fd :
  isEmpty (interest m fd) = false -> m !! fd = Some (interest m fd).
Proof. unfold interest. by destruct (m !! fd). Qed.

(** The registry after a failed registration: the snapshot is written back
    and erased when empty. *)
Lemma restore_snapshot (m : gmap Z NotifierSet) fd ns1 :
  let backup := interest m fd in
  (if isEmpty backup
   then delete fd (<[fd := backup]> (<[fd := ns1]> (snd (subscript m fd))))
   else <[fd := backup]> (<[fd := ns1]> (snd (subscript m fd))))
  = (if isEmpty backup then delete fd m else m).
Proof.
  intros backup. rewrite subscript_map. fold backup.
  rewrite !insert_insert_eq.
  destruct (isEmpty backup) eqn:He.
  - by rewrite delete_insert_eq.
  - apply insert_id. by apply interest_nonempty_lookup.
Qed.

(** ** registerNotifier *)

Lemma registerNotifier_null (E : Env) (w : World E) l :
  run E (registerNotifier None l) w = mkOutcome [] w (Some (false, l)).
Proof. reflexivity. Qed.

Lemma registerNotifier_invalid_descriptor (E : Env) (w : World E) l n :
  fileDescriptor n < 0 ->
  result (run E (registerNotifier (Some n) l) w) = Some (false, l).
Proof.
  intros H. unfold registerNotifier.
  by destruct (Z.ltb_spec (fileDescriptor n) 0); [|lia].
Qed.

(** The slot of the observer's kind is taken: no call is made and the loop
    is left as it was. *)
Lemma registerNotifier_occupied (E : Env) (w : World E) l n p :
  0 <= fileDescriptor n ->
  events (interest (m_notifiers l) (fileDescriptor n)) (static_cast_size_t (type n))
    = Some p ->
  run E (registerNotifier (Some n) l) w = mkOutcome [] w (Some (false, l)).
Proof.
  intros Hfd H. unfold registerNotifier.
  destruct (Z.ltb_spec (fileDescriptor n) 0); [lia|].
  pose proof (subscript_interest (m_notifiers l) (fileDescriptor n)) as Hs.
  pose proof (subscript_map (m_notifiers l) (fileDescriptor n)) as Hm.
  destruct (subscript _ _) as [ns m]; simpl in Hs, Hm; subst ns m.
  rewrite H; simpl. rewrite insert_id, with_notifiers_id; [done|].
  apply interest_nonempty_lookup. eapply occupied_not_empty, H.
Qed.

(** The slot is free and the subscription call succeeds. *)
Lemma registerNotifier_success (E : Env) (w : World E) l n :
  0 <= fileDescriptor n ->
  let fd := fileDescriptor n in
  let i := static_cast_size_t (type n) in
  let ns1 := set_events (interest (m_notifiers l) fd) i (Some n) in
  events (interest (m_notifiers l) fd) i = None ->
  fst (answer E Z (subscribe_call l fd ns1) w) = 0 ->
  let o := run E (registerNotifier (Some n) l) w in
  trace o = [Called (subscribe_call l fd ns1) 0] /\
  result o = Some (true, with_notifiers l (<[fd := ns1]> (m_notifiers l))).
Proof.
  intros Hfd fd i ns1 H Hr o. subst o. unfold registerNotifier.
  destruct (Z.ltb_spec (fileDescriptor n) 0); [lia|]. fold fd i.
  pose proof (subscript_interest (m_notifiers l) fd) as Hs.
  pose proof (subscript_map (m_notifiers l) fd) as Hm.
  destruct (subscript _ _) as [ns m]; simpl in Hs, Hm; subst ns m.
  rewrite H; cbn [nonnull]. fold ns1. rewrite run_bind.
  destruct (run_registerWithWSAAsyncSelect E l fd ns1 w) as [Ht Hres].
  cbv zeta in Ht, Hres. rewrite Hres, Ht, Hr. simpl.
  by rewrite insert_insert_eq.
Qed.

(** The slot is free and the subscription call fails: a second call
    subscribes with the mask of the snapshot, and the snapshot is put back. *)
Lemma registerNotifier_failure (E : Env) (w : World E) l n :
  0 <= fileDescriptor n ->
  let fd := fileDescriptor n in
  let i := static_cast_size_t (type n) in
  let backup := interest (m_notifiers l) fd in
  let ns1 := set_events backup i (Some n) in
  let r1 := fst (answer E Z (subscribe_call l fd ns1) w) in
  let w1 := world (run E (registerWithWSAAsyncSelect l fd ns1) w) in
  let r2 := fst (answer E Z (subscribe_call l fd backup) w1) in
  events backup i = None ->
  r1 <> 0 ->
  let o := run E (registerNotifier (Some n) l) w in
  trace o = (Called (subscribe_call l fd ns1) r1 :: subscribe_log fd r1)
            ++ (Called (subscribe_call l fd backup) r2 :: subscribe_log fd r2) /\
  result o =
    Some (false,
          with_notifiers l
            (if isEmpty backup then delete fd (m_notifiers l) else m_notifiers l)).
Proof.
  intros Hfd fd i backup ns1 r1 w1 r2 H Hr o. subst o. unfold registerNotifier.
  destruct (Z.ltb_spec (fileDescriptor n) 0); [lia|]. fold fd i.
  pose proof (subscript_interest (m_notifiers l) fd) as Hs.
  pose proof (restore_snapshot (m_notifiers l) fd ns1) as Hm.
  destruct (subscript _ _) as [ns m]; simpl in Hs, Hm; subst ns. fold backup in Hm |- *.
  rewrite H; cbn [nonnull]. fold ns1. rewrite run_bind.
  destruct (run_registerWithWSAAsyncSelect E l fd ns1 w) as [Ht Hres].
  cbv zeta in Ht, Hres. rewrite Hres, Ht. fold r1.
  assert (nonzero r1 = true) as -> by (unfold nonzero; by destruct (Z.eqb_spec r1 0)).
  cbn [negb]. cbv zeta. cbn [trace result world]. rewrite run_bind. fold w1.
  destruct (run_registerWithWSAAsyncSelect E l fd backup w1) as [Ht2 Hres2].
  cbv zeta in Ht2, Hres2. rewrite Hres2, Ht2. fold r2. cbn [run trace result world].
  rewrite app_nil_r. split; [done|].
  do 3 f_equal. destruct (isEmpty backup); exact Hm.
Qed.

(** C3: for a valid observer, when the subscription call of registerNotifier
    fails, the call returns false and the registry shows the descriptor as
    before the call: the snapshot taken on entry is back in place, and no
    record is left when the snapshot has three empty slots.  The other
    descriptors and the other members of the loop are untouched. *)
Theorem registerNotifier_rollback (E : Env) (w : World E) l n :
  0 <= fileDescriptor n ->
  let fd := fileDescriptor n in
  let backup := interest (m_notifiers l) fd in
  let attempt := set_events backup (static_cast_size_t (type n)) (Some n) in
  fst (answer E Z (subscribe_call l fd attempt) w) <> 0 ->
  exists l',
    result (run E (registerNotifier (Some n) l) w) = Some (false, l') /\
    interest (m_notifiers l') fd = backup /\
    m_notifiers l' !! fd = (if isEmpty backup then None else Some backup) /\
    (forall fd', fd' <> fd -> m_notifiers l' !! fd' = m_notifiers l !! fd') /\
    l' = with_notifiers l (m_notifiers l').
Proof.
  intros Hfd fd backup attempt Hfail.
  destruct (events backup (static_cast_size_t (type n))) as [p|] eqn:Hslot.
  - exists l. rewrite (registerNotifier_occupied E w l n p Hfd Hslot).
    pose proof (occupied_not_empty _ _ _ Hslot) as Hne.
    split; [done|]. split; [done|]. split.
    { rewrite Hne. by apply interest_nonempty_lookup. }
    split; [done|]. by rewrite with_notifiers_id.
  - destruct (registerNotifier_failure E w l n Hfd Hslot Hfail) as [_ Hres].
    eexists; split; [exact Hres|]. cbn [with_notifiers m_notifiers].
    fold fd backup.
    destruct (isEmpty backup) eqn:He.
    + assert (backup = NotifierSet_default) as Hb.
      { destruct backup as [[?|] [?|] [?|]]; by inversion He. }
      split. { unfold interest. by rewrite lookup_delete_eq. }
      split. { apply lookup_delete_eq. }
      split; [|done]. intros fd' Hne. by apply lookup_delete_ne.
    + split; [done|]. split. { by apply interest_nonempty_lookup. }
      split; done.
Qed.

(** ** Readiness dispatch *)

Lemma run_deliverSlot (E : Env) (w : World E) postman ns i :
  trace (run E (deliverSlot postman ns i) w) =
    match events ns i with
    | Some target => [Called (deliverEvent postman target NotifierEvent) tt]
    | None => []
    end /\
  result (run E (deliverSlot postman ns i) w) = Some tt.
Proof.
  unfold deliverSlot. destruct (events ns i); simpl; [|done].
  by rewrite unit_answer.
Qed.

(** The [switch] routes a condition code to the slot of its kind. *)
Lemma run_switch_op (E : Env) (w : World E) postman ns op :
  trace (run E (switch_op postman ns op) w) = delivery postman ns op /\
  result (run E (switch_op postman ns op) w) = Some tt.
Proof.
  unfold switch_op, delivery, decodeCondition, conditions. cbn [find conditionCode].
  destruct (op =? FD_READ); [apply run_deliverSlot|].
  destruct (op =? FD_CLOSE); [apply run_deliverSlot|].
  destruct (op =? FD_ACCEPT); [apply run_deliverSlot|].
  destruct (op =? FD_WRITE); [apply run_deliverSlot|].
  destruct (op =? FD_CONNECT); [apply run_deliverSlot|].
  destruct (op =? FD_OOB); [apply run_deliverSlot|].
  done.
Qed.

Lemma run_handleSocketMessage (E : Env) (w : World E) wparam lparam l :
  let sockId := to_int wparam in
  let o := run E (handleSocketMessage wparam lparam l) w in
  trace o
    = readiness_trace l sockId (WSAGETSELECTERROR lparam) (WSAGETSELECTEVENT lparam) /\
  result o =
    Some (if nonzero (WSAGETSELECTERROR lparam) then l
          else if nonnull (m_postman l)
               then with_notifiers l (<[sockId := interest (m_notifiers l) sockId]>
                                        (m_notifiers l))
               else l).
Proof.
  intros sockId o. subst o. unfold handleSocketMessage, readiness_trace.
  fold sockId. destruct (nonzero (WSAGETSELECTERROR lparam)).
  { simpl. by rewrite unit_answer. }
  destruct (m_postman l) as [postman|]; cbn [nonnull].
  2: { simpl. by rewrite unit_answer. }
  pose proof (subscript_interest (m_notifiers l) sockId) as Hs.
  pose proof (subscript_map (m_notifiers l) sockId) as Hm.
  destruct (subscript _ _) as [ns m]; simpl in Hs, Hm; subst ns m.
  rewrite run_bind.
  destruct (run_switch_op E w postman (interest (m_notifiers l) sockId)
              (WSAGETSELECTEVENT lparam)) as [Ht Hr].
  rewrite Hr, Ht. cbn [run trace result world]. by rewrite app_nil_r.
Qed.

Lemma count_delivery postman ns op :
  count is_deliverEvent (delivery postman ns op) =
  match decodeCondition op with
  | Some c => if nonnull (events ns (static_cast_size_t (kindOf c))) then 1 else 0
  | None => 0
  end%nat.
Proof.
  unfold delivery. destruct (decodeCondition op) as [c|]; [|done].
  by destruct (events ns _).
Qed.

(** C8: readiness dispatch always returns.  A message with a nonzero error
    code is logged and dropped; with no sink set it is logged and dropped;
    otherwise the observer in the slot of the kind of the reported condition
    gets one notifier event through the sink, and nothing happens when that
    slot is empty.  So one event is delivered exactly when the error code is
    zero, a sink is set and the slot is occupied, and none otherwise. *)
Theorem handleSocketMessage_drops_or_delivers_once
  (E : Env) (w : World E) wparam lparam l :
  let sockId := to_int wparam in
  let err := WSAGETSELECTERROR lparam in
  let op := WSAGETSELECTEVENT lparam in
  let o := run E (handleSocketMessage wparam lparam l) w in
  (exists l', result o = Some l') /\
  trace o = readiness_trace l sockId err op /\
  count is_deliverEvent (trace o) = (if deliverable l sockId err op then 1 else 0)%nat.
Proof.
  intros sockId err op o.
  destruct (run_handleSocketMessage E w wparam lparam l) as [Ht Hr].
  fold sockId err op o in Ht, Hr. split; [eauto|]. split; [done|].
  rewrite Ht. unfold readiness_trace, deliverable, nonzero.
  destruct (err =? 0); [|done]. destruct (m_postman l); [|done]; simpl.
  rewrite count_delivery. by destruct (decodeCondition op).
Qed.

Lemma decodeCondition_code c : decodeCondition (conditionCode c) = Some c.
Proof. by destruct c. Qed.

Lemma select_reply_code c :
  WSAGETSELECTERROR (conditionCode c) = 0 /\
  WSAGETSELECTEVENT (conditionCode c) = conditionCode c.
Proof. by destruct c. Qed.

(** A message that reports condition [c] without error, on a loop with a
    sink: the observer in the slot of the kind of [c] is notified. *)
Lemma handleSocketMessage_routes (E : Env) (w : World E) l postman wparam c :
  trace (run E (handleSocketMessage wparam (conditionCode c)
                  (setPostman (Some postman) l)) w) =
  match events (interest (m_notifiers l) (to_int wparam))
          (static_cast_size_t (kindOf c)) with
  | Some target => [Called (deliverEvent postman target NotifierEvent) tt]
  | None => []
  end.
Proof.
  destruct (run_handleSocketMessage E w wparam (conditionCode c)
              (setPostman (Some postman) l)) as [Ht _].
  cbv zeta in Ht. rewrite Ht. destruct (select_reply_code c) as [-> ->].
  unfold readiness_trace, delivery. cbn [nonzero Z.eqb negb setPostman m_postman m_notifiers].
  by rewrite decodeCondition_code.
Qed.

(** C5: the mapping between interest kinds and low-level conditions is the
    one of the specification.  The mask of a kind is made of the codes of
    the conditions the kind covers: read-ready, peer-closed and incoming
    connection for Read, write-ready and connection-established for Write,
    out-of-band data for Exception.  The mask subscribed for a record is the
    bitwise or of the masks of its occupied slots, it holds the code of a
    condition exactly when the slot of its kind is occupied, and it is zero
    exactly when the record is empty.  A readiness message for a condition is
    routed to the observer in the slot of the kind of that condition. *)
Theorem interest_kind_mapping :
  (forall k, typeToWsaEvents k = policyMask k) /\
  (forall k c,
     Z.land (typeToWsaEvents k) (conditionCode c)
     = if NotificationType_eqb (kindOf c) k then conditionCode c else 0) /\
  (forall ns,
     eventsToSubscribe ns
     = Z.lor (Z.lor (if nonnull (events ns 0) then policyMask Read else 0)
                    (if nonnull (events ns 1) then policyMask Write else 0))
             (if nonnull (events ns 2) then policyMask Exception else 0)) /\
  (forall ns c,
     negb (Z.land (eventsToSubscribe ns) (conditionCode c) =? 0)
     = nonnull (events ns (static_cast_size_t (kindOf c)))) /\
  (forall ns, (eventsToSubscribe ns =? 0) = isEmpty ns) /\
  (forall (E : Env) (w : World E) l postman wparam c,
     trace (run E (handleSocketMessage wparam (conditionCode c)
                     (setPostman (Some postman) l)) w) =
     match events (interest (m_notifiers l) (to_int wparam))
             (static_cast_size_t (kindOf c)) with
     | Some target => [Called (deliverEvent postman target NotifierEvent) tt]
     | None => []
     end).
Proof.
  split. { by intros []. }
  split. { by intros [] []. }
  split. { by intros [[?|] [?|] [?|]]. }
  split. { by intros [[?|] [?|] [?|]] []. }
  split. { by intros [[?|] [?|] [?|]]. }
  intros. apply handleSocketMessage_routes.
Qed.

(** ** Registering twice *)

Lemma registerNotifier_true_inv (E : Env) (w : World E) l n l1 :
  result (run E (registerNotifier (Some n) l) w) = Some (true, l1) ->
  let fd := fileDescriptor n in
  let ns1 := set_events (interest (m_notifiers l) fd)
               (static_cast_size_t (type n)) (Some n) in
  0 <= fd /\ l1 = with_notifiers l (<[fd := ns1]> (m_notifiers l)).
Proof.
  intros H fd ns1.
  destruct (Z.lt_ge_cases (fileDescriptor n) 0) as [Hneg|Hfd].
  { rewrite (registerNotifier_invalid_descriptor E w l n Hneg) in H. congruence. }
  split; [done|].
  destruct (events (interest (m_notifiers l) fd) (static_cast_size_t (type n)))
    as [p|] eqn:Hslot.
  { rewrite (registerNotifier_occupied E w l n p Hfd Hslot) in H.
    simpl in H. congruence. }
  destruct (Z.eq_dec (fst (answer E Z (subscribe_call l fd ns1) w)) 0) as [H0|Hfail].
  - destruct (registerNotifier_success E w l n Hfd Hslot H0) as [_ Hr].
    rewrite Hr in H. by injection H as <-.
  - destruct (registerNotifier_failure E w l n Hfd Hslot Hfail) as [_ Hr].
    rewrite Hr in H. congruence.
Qed.

(** C6: once an observer is registered for a descriptor and an interest
    kind, registering again for the same descriptor and kind returns false
    without a call and leaves the loop as it was; the slot still holds the
    first observer, and a readiness message of that kind for the descriptor
    is delivered to the first observer. *)
Theorem registerNotifier_duplicate_rejected
  (E : Env) (w w' w'' : World E) l l1 n1 n2 postman wparam c :
  result (run E (registerNotifier (Some n1) l) w) = Some (true, l1) ->
  fileDescriptor n2 = fileDescriptor n1 ->
  type n2 = type n1 ->
  to_int wparam = fileDescriptor n1 ->
  kindOf c = type n1 ->
  run E (registerNotifier (Some n2) l1) w' = mkOutcome [] w' (Some (false, l1)) /\
  events (interest (m_notifiers l1) (fileDescriptor n1)) (static_cast_size_t (type n1))
    = Some n1 /\
  trace (run E (handleSocketMessage wparam (conditionCode c)
                  (setPostman (Some postman) l1)) w'')
    = [Called (deliverEvent postman n1 NotifierEvent) tt].
Proof.
  intros Hreg Hfd Hty Hw Hc.
  destruct (registerNotifier_true_inv E w l n1 l1 Hreg) as [Hpos ->].
  assert (events (interest (m_notifiers
                    (with_notifiers l
                       (<[fileDescriptor n1 :=
                            set_events (interest (m_notifiers l) (fileDescriptor n1))
                              (static_cast_size_t (type n1)) (Some n1)]>
                          (m_notifiers l)))) (fileDescriptor n1))
            (static_cast_size_t (type n1)) = Some n1) as Hslot.
  { unfold interest. cbn [with_notifiers m_notifiers].
    rewrite lookup_insert_eq. apply events_set_same. }
  split.
  { apply registerNotifier_occupied with (p := n1); rewrite ?Hfd, ?Hty; done. }
  split; [exact Hslot|].
  rewrite handleSocketMessage_routes, Hw, Hc. by rewrite Hslot.
Qed.

(** ** waitForEvents and wakeUp *)

Lemma run_dispatch (E : Env) (w : World E) msg :
  trace (run E (dispatch msg) w) = dispatch_trace msg /\
  result (run E (dispatch msg) w) = Some tt.
Proof.
  unfold dispatch, dispatch_trace.
  destruct (message msg =? WM_QUIT); simpl; [done|].
  by rewrite !unit_answer.
Qed.

Lemma count_dispatch_trace msg :
  (count is_DispatchMessage (dispatch_trace msg) <= 1)%nat.
Proof.
  unfold dispatch_trace, count. destruct (message msg =? WM_QUIT); simpl; lia.
Qed.

Lemma signal_fired_iff r : wait_outcome 1 r = SignalFired <-> r = WAIT_OBJECT_0.
Proof.
  split; [|by intros ->].
  unfold wait_outcome, WAIT_OBJECT_0, WAIT_TIMEOUT. change (0 + 1) with 1.
  destruct (Z.leb_spec 0 r), (Z.ltb_spec r 1); simpl; try lia;
    destruct (r =? 1); try discriminate; destruct (r =? 258); discriminate.
Qed.

(** Every run of [waitForEvents], whatever the environment answers and
    whether or not the loop has a wake-up event. *)
Lemma run_waitForEvents (E : Env) (w : World E) NDEBUG timeout l :
  let o := run E (waitForEvents NDEBUG timeout l) w in
  let h := m_wakeUpEvent l in
  let first := answer E _ poll w in
  let waited := answer E _ (wait_call l timeout) (snd first) in
  let cleared := answer E _ (ResetEvent h) (snd waited) in
  let second := answer E _ poll (snd waited) in
  trace o =
    match fst first with
    | Some msg => Called poll (Some msg) :: dispatch_trace msg
    | None =>
        Called poll None :: Called (wait_call l timeout) (fst waited) ::
        (if fst waited =? WAIT_OBJECT_0
         then if NDEBUG || nonzero h then [Called (ResetEvent h) (fst cleared)] else []
         else Called poll (fst second) :: dispatch_trace_opt (fst second))
    end /\
  result o =
    match fst first with
    | Some _ => Some tt
    | None =>
        if (fst waited =? WAIT_OBJECT_0) && negb (NDEBUG || nonzero h)
        then None else Some tt
    end.
Proof.
  intros o h first waited cleared second. subst o.
  unfold waitForEvents. cbn [bind call run trace result world].
  fold poll. fold first. destruct (fst first) as [msg|] eqn:Hfirst.
  - cbn [bind]. destruct (run_dispatch E (snd first) msg) as [Ht Hr].
    by rewrite Hr, Ht.
  - cbn [bind run trace result world].
    change (MsgWaitForMultipleObjects _ _ _ _ _) with (wait_call l timeout).
    fold waited. destruct (fst waited =? WAIT_OBJECT_0) eqn:Hw.
    + unfold assert. fold h.
      destruct NDEBUG, (nonzero h); cbn [bind run trace result world orb negb andb];
        by fold cleared.
    + cbn [bind call run trace result world andb]. fold poll. fold second.
      destruct (fst second) as [msg|]; [|done].
      cbn [bind dispatch_trace_opt].
      destruct (run_dispatch E (snd second) msg) as [Ht Hr]. by rewrite Hr, Ht.
Qed.

Lemma nonzero_true x : x <> 0 -> nonzero x = true.
Proof. intros H. unfold nonzero. by destruct (Z.eqb_spec x 0). Qed.

(** Every call of waitForEvents dispatches at most one message.  On a loop
    that has its wake-up event the call returns, and its calls are: a poll
    of the queue that does not block; when a message was pending, its
    dispatch and nothing else; otherwise one wait over the wake-up event and
    the queue with the timeout of the caller, followed, when the event was
    signaled, by the reset of the event and no dispatch, and in the other
    cases (queue activity, timeout) by a second poll and the dispatch of the
    message it found, if any. *)
Theorem waitForEvents_cycle (E : Env) (w : World E) NDEBUG timeout l :
  let o := run E (waitForEvents NDEBUG timeout l) w in
  let h := m_wakeUpEvent l in
  let first := answer E _ poll w in
  let waited := answer E _ (wait_call l timeout) (snd first) in
  let cleared := answer E _ (ResetEvent h) (snd waited) in
  let second := answer E _ poll (snd waited) in
  (count is_DispatchMessage (trace o) <= 1)%nat /\
  (h <> NULL ->
   result o = Some tt /\
   wait_call l timeout
     = MsgWaitForMultipleObjects 1 [h] false
         (if timeout =? -1 then INFINITE else to_DWORD timeout) QS_ALLINPUT /\
   trace o =
     match fst first with
     | Some msg => Called poll (Some msg) :: dispatch_trace msg
     | None =>
         Called poll None :: Called (wait_call l timeout) (fst waited) ::
         match wait_outcome 1 (fst waited) with
         | SignalFired => [Called (ResetEvent h) (fst cleared)]
         | QueueActivity | TimedOut | WaitOther =>
             Called poll (fst second) :: dispatch_trace_opt (fst second)
         end
     end).
Proof.
  intros o h first waited cleared second.
  destruct (run_waitForEvents E w NDEBUG timeout l) as [Ht Hr].
  fold o h first waited cleared second in Ht, Hr. split.
  - rewrite Ht. destruct (fst first) as [msg|].
    { pose proof (count_dispatch_trace msg). unfold count in *. simpl. lia. }
    destruct (fst waited =? WAIT_OBJECT_0).
    { destruct (NDEBUG || nonzero h); unfold count; simpl; lia. }
    destruct (fst second) as [msg|]; [|unfold count; simpl; lia].
    pose proof (count_dispatch_trace msg). unfold count in *. simpl. lia.
  - intros Hh. pose proof (nonzero_true h Hh) as Hnz.
    rewrite Hr, Ht, Hnz, orb_true_r, andb_false_r.
    split. { by destruct (fst first). }
    split. { unfold wait_call, dwTimeout. fold h. by rewrite Hnz. }
    destruct (fst first); [done|]. do 2 f_equal.
    destruct (Z.eqb_spec (fst waited) WAIT_OBJECT_0) as [Heq|Hne].
    + apply signal_fired_iff in Heq. by rewrite Heq.
    + destruct (wait_outcome 1 (fst waited)) eqn:Ho; try done.
      apply signal_fired_iff in Ho. contradiction.
Qed.

Lemma waitForEvents_cycle_witness :
  m_wakeUpEvent loop0 <> NULL /\
  result (run scripted (waitForEvents false 1000 loop0) woken) = Some tt /\
  trace (run scripted (waitForEvents false 1000 loop0) woken) =
    [Called poll None;
     Called (MsgWaitForMultipleObjects 1 [100] false 1000 QS_ALLINPUT) WAIT_OBJECT_0;
     Called (ResetEvent 100) true].
Proof.
  assert (m_wakeUpEvent loop0 <> NULL) as H by (vm_compute; discriminate).
  split; [exact H|].
  destruct (waitForEvents_cycle scripted woken false 1000 loop0) as [_ Hc].
  destruct (Hc H) as (Hr & _ & Ht). split; [exact Hr|]. exact Ht.
Defined.

(** ** A loop without its wake-up event *)

Lemma wakeUp_no_event (E : Env) (w : World E) l :
  m_wakeUpEvent l = NULL -> run E (wakeUp l) w = mkOutcome [] w (Some tt).
Proof. intros H. unfold wakeUp. by rewrite H. Qed.

(** The wait is on the queue alone. *)
Lemma wait_call_no_event l timeout :
  m_wakeUpEvent l = NULL ->
  wait_call l timeout
  = MsgWaitForMultipleObjects 0 [] false (dwTimeout timeout) QS_ALLINPUT.
Proof. intros H. unfold wait_call. by rewrite H. Qed.

(** When that wait is ended by input in the queue, which it reports as
    [WAIT_OBJECT_0 + 0], the loop takes it for the wake-up event: the
    assertion fails in a build with assertions, and the null handle is given
    to [ResetEvent] in a build without. *)
Lemma waitForEvents_no_event_queue_input (E : Env) (w : World E) NDEBUG timeout l :
  m_wakeUpEvent l = NULL ->
  fst (answer E _ poll w) = None ->
  fst (answer E _ (wait_call l timeout) (snd (answer E _ poll w))) = WAIT_OBJECT_0 + 0 ->
  let o := run E (waitForEvents NDEBUG timeout l) w in
  if NDEBUG
  then exists b,
         trace o = [Called poll None;
                    Called (wait_call l timeout) (WAIT_OBJECT_0 + 0);
                    Called (ResetEvent NULL) b]
  else result o = None.
Proof.
  intros Hh Hp Hw o.
  destruct (run_waitForEvents E w NDEBUG timeout l) as [Ht Hr].
  fold o in Ht, Hr. cbv zeta in Ht, Hr. rewrite Hp, Hw, Hh in *.
  destruct NDEBUG; simpl in *; [|done].
  eexists. by rewrite Ht.
Qed.

(** C10: a loop whose wake-up event could not be created.  The constructor
    leaves a null handle; wakeUp does nothing on it.  A waitForEvents call
    waits on no handle, and when input arrives during that wait, the call
    stops on its own assertion in a build with assertions, and calls
    ResetEvent on the null handle in a build without. *)
Theorem waitForEvents_without_wake_event :
  result (run scripted Win32PlatformEventLoop_new no_wake_event) = Some degraded_loop /\
  m_wakeUpEvent degraded_loop = NULL /\
  trace (run scripted (wakeUp degraded_loop) no_wake_event) = [] /\
  wait_outcome 0 (WAIT_OBJECT_0 + 0) = QueueActivity /\
  result (run scripted (waitForEvents false 1000 degraded_loop) no_wake_event) = None /\
  trace (run scripted (waitForEvents true 1000 degraded_loop) no_wake_event) =
    [Called poll None;
     Called (MsgWaitForMultipleObjects 0 [] false 1000 QS_ALLINPUT) WAIT_OBJECT_0;
     Called (ResetEvent NULL) false].
Proof. repeat split. Qed.

(** ** Empty records in the registry *)

(** C1: on a loop with no record for descriptor 5, unregisterNotifier for an
    observer of that descriptor returns false and makes no call, and the
    registry, which had no record, has one afterwards: an empty record for
    descriptor 5. *)
Theorem unregisterNotifier_unknown_descriptor_adds_record :
  m_notifiers loop0 !! fileDescriptor reader5 = None /\
  size (m_notifiers loop0) = 0%nat /\
  exists l',
    trace (run scripted (unregisterNotifier (Some reader5) loop0) idle) = [] /\
    result (run scripted (unregisterNotifier (Some reader5) loop0) idle)
      = Some (false, l') /\
    m_notifiers l' !! fileDescriptor reader5 = Some NotifierSet_default /\
    size (m_notifiers l') = 1%nat.
Proof.
  split; [done|]. split; [done|].
  eexists. split; [reflexivity|]. split; [reflexivity|]. split; by vm_compute.
Qed.

Lemma empty_record_breaks_invariant (m : gmap Z NotifierSet) fd :
  m !! fd = Some NotifierSet_default -> ~ no_empty_record m.
Proof. intros H Hinv. by specialize (Hinv fd _ H). Qed.

(** C2: the registry of a fresh loop holds no empty record.  After
    unregisterNotifier for an observer of a descriptor that was never
    registered it holds one, and so it does after a readiness message for a
    descriptor that was never registered. *)
Theorem empty_record_left_in_registry :
  no_empty_record (m_notifiers loop0) /\
  (exists l',
     result (run scripted (unregisterNotifier (Some reader5) loop0) idle)
       = Some (false, l') /\
     m_notifiers l' !! 5 = Some NotifierSet_default /\
     ~ no_empty_record (m_notifiers l')) /\
  (exists l',
     result (run scripted (handleSocketMessage 9 FD_READ
                             (setPostman (Some 1%positive) loop0)) idle)
       = Some l' /\
     m_notifiers l' !! 9 = Some NotifierSet_default /\
     ~ no_empty_record (m_notifiers l')).
Proof.
  split. { intros fd ns H. cbn in H. by rewrite lookup_empty in H. }
  split.
  - eexists. split; [reflexivity|].
    split; [by vm_compute|]. apply (empty_record_breaks_invariant _ 5). by vm_compute.
  - eexists. split; [reflexivity|].
    split; [by vm_compute|]. apply (empty_record_breaks_invariant _ 9). by vm_compute.
Qed.

(** The invariant survives registerNotifier, whatever it returns... *)
Lemma registerNotifier_keeps_no_empty_record (E : Env) (w : World E) l p b l' :
  no_empty_record (m_notifiers l) ->
  result (run E (registerNotifier p l) w) = Some (b, l') ->
  no_empty_record (m_notifiers l').
Proof.
  intros Hinv H. destruct p as [n|]; [|by injection H as _ <-].
  destruct (Z.lt_ge_cases (fileDescriptor n) 0) as [Hneg|Hfd].
  { rewrite (registerNotifier_invalid_descriptor E w l n Hneg) in H.
    by injection H as _ <-. }
  destruct (events (interest (m_notifiers l) (fileDescriptor n))
              (static_cast_size_t (type n))) as [q|] eqn:Hslot.
  { rewrite (registerNotifier_occupied E w l n q Hfd Hslot) in H.
    by injection H as _ <-. }
  set (ns1 := set_events (interest (m_notifiers l) (fileDescriptor n))
                (static_cast_size_t (type n)) (Some n)).
  destruct (Z.eq_dec (fst (answer E Z (subscribe_call l (fileDescriptor n) ns1) w)) 0)
    as [H0|Hfail].
  - destruct (registerNotifier_success E w l n Hfd Hslot H0) as [_ Hr].
    rewrite Hr in H. injection H as _ <-. cbn [with_notifiers m_notifiers].
    intros fd ns. rewrite lookup_insert.
    destruct (decide (fileDescriptor n = fd)); [|by apply Hinv].
    intros [= <-]. apply set_occupied_not_empty.
  - destruct (registerNotifier_failure E w l n Hfd Hslot Hfail) as [_ Hr].
    rewrite Hr in H. injection H as _ <-. cbn [with_notifiers m_notifiers].
    destruct (isEmpty _); [|done].
    intros fd ns Hl. apply lookup_delete_Some in Hl as [_ Hl]. by eapply Hinv.
Qed.

(** ... and a successful unregisterNotifier. *)
Lemma unregisterNotifier_true_keeps_no_empty_record (E : Env) (w : World E) l p l' :
  no_empty_record (m_notifiers l) ->
  result (run E (unregisterNotifier p l) w) = Some (true, l') ->
  no_empty_record (m_notifiers l').
Proof.
  intros Hinv H. destruct p as [n|]; [|done].
  destruct (m_notifiers l !! fileDescriptor n) as [ns|] eqn:Hl.
  2: { by rewrite (unregisterNotifier_no_record E w l n Hl) in H. }
  destruct (events ns (static_cast_size_t (type n))) as [q|] eqn:Hslot.
  2: { by rewrite (unregisterNotifier_empty_slot E w l n ns Hl Hslot) in H. }
  rewrite (unregisterNotifier_occupied_result E w l n ns q Hl Hslot) in H.
  injection H as <-. cbn [with_notifiers m_notifiers].
  destruct (isEmpty _) eqn:He.
  - intros fd ns' Hd. apply lookup_delete_Some in Hd as [_ Hd]. by eapply Hinv.
  - intros fd ns'. rewrite lookup_insert.
    destruct (decide (fileDescriptor n = fd)); [|by apply Hinv].
    by intros [= <-].
Qed.

(** ** The theorems above at concrete inputs *)

Lemma unregisterNotifier_occupied_witness :
  m_notifiers loop_reader5 !! fileDescriptor reader5
    = Some (mkNotifierSet (Some reader5) None None) /\
  events (mkNotifierSet (Some reader5) None None) (static_cast_size_t (type reader5))
    = Some reader5 /\
  trace (run scripted (unregisterNotifier (Some reader5) loop_reader5) failing_select)
    = [Called (WSAAsyncSelect 5 200 WM_KD_SOCKETEVENT 0) (-1);
       Called (spdlog error "Failed to register notifier for socket = {}. Error = {}"
                 [5; -1]) tt] /\
  result (run scripted (unregisterNotifier (Some reader5) loop_reader5) failing_select)
    = Some (true, loop0).
Proof.
  assert (m_notifiers loop_reader5 !! fileDescriptor reader5
          = Some (mkNotifierSet (Some reader5) None None)) as H1 by reflexivity.
  assert (events (mkNotifierSet (Some reader5) None None)
            (static_cast_size_t (type reader5)) = Some reader5) as H2 by reflexivity.
  split; [exact H1|]. split; [exact H2|].
  exact (unregisterNotifier_occupied scripted failing_select loop_reader5 reader5
           _ reader5 H1 H2).
Defined.

Lemma registerNotifier_rollback_witness :
  0 <= fileDescriptor reader5 /\
  fst (answer scripted Z
         (subscribe_call loop0 5 (mkNotifierSet (Some reader5) None None))
         failing_select) <> 0 /\
  exists l',
    result (run scripted (registerNotifier (Some reader5) loop0) failing_select)
      = Some (false, l') /\
    m_notifiers l' !! 5 = None.
Proof.
  assert (0 <= fileDescriptor reader5) as H1 by (simpl; lia).
  assert (fst (answer scripted Z
                 (subscribe_call loop0 5 (mkNotifierSet (Some reader5) None None))
                 failing_select) <> 0) as H2 by (simpl; lia).
  split; [exact H1|]. split; [exact H2|].
  destruct (registerNotifier_rollback scripted failing_select loop0 reader5 H1 H2)
    as (l' & Hr & _ & Hl & _).
  exists l'. split; [exact Hr | exact Hl].
Defined.

Lemma registerNotifier_duplicate_rejected_witness :
  result (run scripted (registerNotifier (Some reader5) loop0) idle)
    = Some (true, loop_reader5) /\
  fileDescriptor reader5' = fileDescriptor reader5 /\
  type reader5' = type reader5 /\
  to_int 5 = fileDescriptor reader5 /\
  kindOf PeerClosed = type reader5 /\
  result (run scripted (registerNotifier (Some reader5') loop_reader5) idle)
    = Some (false, loop_reader5) /\
  trace (run scripted (handleSocketMessage 5 FD_CLOSE
                         (setPostman (Some 7%positive) loop_reader5)) idle)
    = [Called (deliverEvent 7%positive reader5 NotifierEvent) tt].
Proof.
  assert (result (run scripted (registerNotifier (Some reader5) loop0) idle)
          = Some (true, loop_reader5)) as H1 by reflexivity.
  destruct (registerNotifier_duplicate_rejected scripted idle idle idle
              loop0 loop_reader5 reader5 reader5' 7%positive 5 PeerClosed
              H1 eq_refl eq_refl eq_refl eq_refl) as (Hdup & _ & Hdeliver).
  split; [exact H1|]. do 4 (split; [reflexivity|]).
  split; [by rewrite Hdup | exact Hdeliver].
Defined.

(** ** Further properties of the notifier registry *)

Lemma with_notifiers_twice l m m' :
  with_notifiers (with_notifiers l m) m' = with_notifiers l m'.
Proof. reflexivity. Qed.

Lemma set_events_undo ns (k : NotificationType) n :
  events ns (static_cast_size_t k) = None ->
  set_events (set_events ns (static_cast_size_t k) (Some n)) (static_cast_size_t k) None
  = ns.
Proof. destruct ns, k; simpl; by intros ->. Qed.

Lemma isEmpty_is_default ns : isEmpty ns = true -> ns = NotifierSet_default.
Proof. destruct ns as [[?|] [?|] [?|]]; by intros. Qed.

Lemma interest_insert m fd ns : interest (<[fd := ns]> m) fd = ns.
Proof. unfold interest. by rewrite lookup_insert_eq. Qed.

Lemma interest_insert_ne m fd fd' ns :
  fd <> fd' -> interest (<[fd := ns]> m) fd' = interest m fd'.
Proof. intros H. unfold interest. by rewrite lookup_insert_ne. Qed.

Lemma interest_delete_empty m fd fd' :
  isEmpty (interest m fd) = true -> interest (delete fd m) fd' = interest m fd'.
Proof.
  intros H. destruct (decide (fd = fd')) as [<-|Hne].
  - apply isEmpty_is_default in H. rewrite H. unfold interest.
    by rewrite lookup_delete_eq.
  - unfold interest. by rewrite lookup_delete_ne.
Qed.

(** What a registerNotifier that returned true has done. *)
Lemma registerNotifier_true_run (E : Env) (w : World E) l n l1 :
  result (run E (registerNotifier (Some n) l) w) = Some (true, l1) ->
  let fd := fileDescriptor n in
  let backup := interest (m_notifiers l) fd in
  let ns1 := set_events backup (static_cast_size_t (type n)) (Some n) in
  0 <= fd /\
  events backup (static_cast_size_t (type n)) = None /\
  l1 = with_notifiers l (<[fd := ns1]> (m_notifiers l)) /\
  trace (run E (registerNotifier (Some n) l) w) = [Called (subscribe_call l fd ns1) 0].
Proof.
  intros H fd backup ns1.
  destruct (Z.lt_ge_cases (fileDescriptor n) 0) as [Hneg|Hfd].
  { rewrite (registerNotifier_invalid_descriptor E w l n Hneg) in H. congruence. }
  split; [done|].
  destruct (events backup (static_cast_size_t (type n))) as [p|] eqn:Hslot.
  { rewrite (registerNotifier_occupied E w l n p Hfd Hslot) in H.
    simpl in H. congruence. }
  split; [done|].
  destruct (Z.eq_dec (fst (answer E Z (subscribe_call l fd ns1) w)) 0) as [H0|Hfail].
  - destruct (registerNotifier_success E w l n Hfd Hslot H0) as [Ht Hr].
    rewrite Hr in H. split; [by injection H as <-| exact Ht].
  - destruct (registerNotifier_failure E w l n Hfd Hslot Hfail) as [_ Hr].
    rewrite Hr in H. congruence.
Qed.

(** The loop registerNotifier leaves differs from the one it found in the
    record of the observer's descriptor at most. *)
Lemma registerNotifier_result_shape (E : Env) (w : World E) l p :
  exists b m',
    result (run E (registerNotifier p l) w) = Some (b, with_notifiers l m') /\
    forall fd', (forall n, p = Some n -> fd' <> fileDescriptor n) ->
                m' !! fd' = m_notifiers l !! fd'.
Proof.
  destruct p as [n|].
  2: { exists false, (m_notifiers l). by rewrite with_notifiers_id. }
  destruct (Z.lt_ge_cases (fileDescriptor n) 0) as [Hneg|Hfd].
  { exists false, (m_notifiers l).
    rewrite (registerNotifier_invalid_descriptor E w l n Hneg).
    by rewrite with_notifiers_id. }
  destruct (events (interest (m_notifiers l) (fileDescriptor n))
              (static_cast_size_t (type n))) as [q|] eqn:Hslot.
  { exists false, (m_notifiers l).
    rewrite (registerNotifier_occupied E w l n q Hfd Hslot).
    by rewrite with_notifiers_id. }
  set (ns1 := set_events (interest (m_notifiers l) (fileDescriptor n))
                (static_cast_size_t (type n)) (Some n)).
  destruct (Z.eq_dec (fst (answer E Z (subscribe_call l (fileDescriptor n) ns1) w)) 0)
    as [H0|Hfail].
  - destruct (registerNotifier_success E w l n Hfd Hslot H0) as [_ Hr].
    eexists _, _. split; [exact Hr|].
    intros fd' Hne. apply lookup_insert_ne. intros Heq. by apply (Hne n eq_refl).
  - destruct (registerNotifier_failure E w l n Hfd Hslot Hfail) as [_ Hr].
    eexists _, _. split; [exact Hr|].
    intros fd' Hne. destruct (isEmpty _); [|done].
    apply lookup_delete_ne. intros Heq. by apply (Hne n eq_refl).
Qed.

Lemma unregisterNotifier_result_shape (E : Env) (w : World E) l p :
  exists b m',
    result (run E (unregisterNotifier p l) w) = Some (b, with_notifiers l m') /\
    forall fd', (forall n, p = Some n -> fd' <> fileDescriptor n) ->
                m' !! fd' = m_notifiers l !! fd'.
Proof.
  destruct p as [n|].
  2: { exists false, (m_notifiers l). by rewrite with_notifiers_id. }
  destruct (m_notifiers l !! fileDescriptor n) as [ns|] eqn:Hl.
  2: { rewrite (unregisterNotifier_no_record E w l n Hl). eexists _, _.
       split; [reflexivity|]. intros fd' Hne.
       apply lookup_insert_ne. intros Heq. by apply (Hne n eq_refl). }
  destruct (events ns (static_cast_size_t (type n))) as [q|] eqn:Hslot.
  2: { rewrite (unregisterNotifier_empty_slot E w l n ns Hl Hslot).
       exists false, (m_notifiers l). by rewrite with_notifiers_id. }
  rewrite (unregisterNotifier_occupied_result E w l n ns q Hl Hslot).
  eexists _, _. split; [reflexivity|]. intros fd' Hne.
  assert (fileDescriptor n <> fd') as Hd by (intros Heq; by apply (Hne n eq_refl)).
  destruct (isEmpty _); [by apply lookup_delete_ne | by apply lookup_insert_ne].
Qed.

(** X1: registerNotifier with a null observer or with an observer whose
    descriptor is negative returns false, leaves the loop as it was and makes
    no subscription call. *)
Theorem registerNotifier_rejects_invalid (E : Env) (w : World E) l p :
  (forall n, p = Some n -> fileDescriptor n < 0) ->
  result (run E (registerNotifier p l) w) = Some (false, l) /\
  count is_WSAAsyncSelect (trace (run E (registerNotifier p l) w)) = 0%nat.
Proof.
  intros H. destruct p as [n|]; [|done].
  specialize (H n eq_refl). unfold registerNotifier.
  by destruct (Z.ltb_spec (fileDescriptor n) 0); [|lia].
Qed.

Lemma registerNotifier_rejects_invalid_witness :
  (forall n, Some (mkNotifier 1 (-1) Read) = Some n -> fileDescriptor n < 0) /\
  result (run scripted (registerNotifier (Some (mkNotifier 1 (-1) Read)) loop0) idle)
    = Some (false, loop0).
Proof.
  assert (forall n, Some (mkNotifier 1 (-1) Read) = Some n -> fileDescriptor n < 0) as H.
  { intros n [= <-]. simpl. lia. }
  split; [exact H|].
  exact (proj1 (registerNotifier_rejects_invalid scripted idle loop0 _ H)).
Defined.

(** X2: when registerNotifier returns true, the slot of the observer's kind
    was free and now holds the observer, the other slots of the descriptor are
    as before, and the call made exactly one subscription call, which
    succeeded and carried the mask of the record as it now stands. *)
Theorem registerNotifier_true_state (E : Env) (w : World E) l n l1 :
  result (run E (registerNotifier (Some n) l) w) = Some (true, l1) ->
  let fd := fileDescriptor n in
  let i := static_cast_size_t (type n) in
  0 <= fd /\
  events (interest (m_notifiers l) fd) i = None /\
  events (interest (m_notifiers l1) fd) i = Some n /\
  (forall k, k <> type n ->
     events (interest (m_notifiers l1) fd) (static_cast_size_t k)
     = events (interest (m_notifiers l) fd) (static_cast_size_t k)) /\
  trace (run E (registerNotifier (Some n) l) w)
    = [Called (WSAAsyncSelect fd (m_msgWindow l1) WM_KD_SOCKETEVENT
                 (eventsToSubscribe (interest (m_notifiers l1) fd))) 0].
Proof.
  intros H fd i.
  destruct (registerNotifier_true_run E w l n l1 H) as (Hfd & Hslot & -> & Ht).
  cbn [with_notifiers m_notifiers m_msgWindow]. rewrite interest_insert.
  split; [done|]. split; [done|]. split; [apply events_set_same|].
  split; [|exact Ht].
  intros k Hk. by apply events_set_other.
Qed.

Lemma registerNotifier_true_state_witness :
  result (run scripted (registerNotifier (Some reader5) loop0) idle)
    = Some (true, loop_reader5) /\
  events (interest (m_notifiers loop_reader5) 5) 0 = Some reader5 /\
  trace (run scripted (registerNotifier (Some reader5) loop0) idle)
    = [Called (WSAAsyncSelect 5 200 WM_KD_SOCKETEVENT 41) 0].
Proof.
  assert (result (run scripted (registerNotifier (Some reader5) loop0) idle)
          = Some (true, loop_reader5)) as H by reflexivity.
  split; [exact H|].
  destruct (registerNotifier_true_state scripted idle loop0 reader5 loop_reader5 H)
    as (_ & _ & Hs & _ & Ht).
  split; [exact Hs | exact Ht].
Defined.

(** X3: registerNotifier and unregisterNotifier, whatever they return, touch
    the record of no other descriptor than the observer's, and leave the
    handles and the postman of the loop as they were. *)
Theorem notifier_operations_frame (E : Env) (w : World E) l n b l' :
  result (run E (registerNotifier (Some n) l) w) = Some (b, l') \/
  result (run E (unregisterNotifier (Some n) l) w) = Some (b, l') ->
  (forall fd', fd' <> fileDescriptor n ->
     m_notifiers l' !! fd' = m_notifiers l !! fd') /\
  m_wakeUpEvent l' = m_wakeUpEvent l /\
  m_msgWindow l' = m_msgWindow l /\
  m_postman l' = m_postman l.
Proof.
  intros [H|H].
  - destruct (registerNotifier_result_shape E w l (Some n)) as (b' & m' & Hr & Hm).
    rewrite Hr in H. injection H as _ <-. split; [|done].
    intros fd' Hne. apply Hm. by intros ? [= <-].
  - destruct (unregisterNotifier_result_shape E w l (Some n)) as (b' & m' & Hr & Hm).
    rewrite Hr in H. injection H as _ <-. split; [|done].
    intros fd' Hne. apply Hm. by intros ? [= <-].
Qed.

Lemma notifier_operations_frame_witness :
  (result (run scripted (registerNotifier (Some (mkNotifier 4 9 Write)) loop_reader5) idle)
     = Some (true,
             mkLoop (<[9 := mkNotifierSet None (Some (mkNotifier 4 9 Write)) None]>
                       (m_notifiers loop_reader5)) 100 200 None) \/
   result (run scripted (unregisterNotifier (Some (mkNotifier 4 9 Write)) loop_reader5) idle)
     = Some (true,
             mkLoop (<[9 := mkNotifierSet None (Some (mkNotifier 4 9 Write)) None]>
                       (m_notifiers loop_reader5)) 100 200 None)) /\
  (<[9 := mkNotifierSet None (Some (mkNotifier 4 9 Write)) None]>
     (m_notifiers loop_reader5)) !! 5 = m_notifiers loop_reader5 !! 5.
Proof.
  assert (result (run scripted (registerNotifier (Some (mkNotifier 4 9 Write))
                                  loop_reader5) idle)
          = Some (true,
                  mkLoop (<[9 := mkNotifierSet None (Some (mkNotifier 4 9 Write)) None]>
                            (m_notifiers loop_reader5)) 100 200 None)) as H
    by reflexivity.
  split; [by left|].
  destruct (notifier_operations_frame scripted idle loop_reader5 _ _ _ (or_introl H))
    as [Hf _].
  apply (Hf 5). simpl. lia.
Defined.

(** X4: registering an observer and then unregistering an observer of the
    same descriptor and kind gives back the registry of before, less the
    record of the descriptor if that record was empty; on a registry without
    empty records the loop is exactly the one of before. *)
Theorem register_then_unregister (E : Env) (w w' : World E) l n n' l1 :
  result (run E (registerNotifier (Some n) l) w) = Some (true, l1) ->
  fileDescriptor n' = fileDescriptor n ->
  type n' = type n ->
  let fd := fileDescriptor n in
  result (run E (unregisterNotifier (Some n') l1) w') =
    Some (true,
          with_notifiers l
            (if isEmpty (interest (m_notifiers l) fd)
             then delete fd (m_notifiers l) else m_notifiers l)) /\
  (no_empty_record (m_notifiers l) ->
   result (run E (unregisterNotifier (Some n') l1) w') = Some (true, l)).
Proof.
  intros H Hfd Hty fd.
  destruct (registerNotifier_true_run E w l n l1 H) as (_ & Hslot & -> & _).
  fold fd in Hslot |- *.
  set (backup := interest (m_notifiers l) fd) in *.
  set (ns1 := set_events backup (static_cast_size_t (type n)) (Some n)).
  assert (result (run E (unregisterNotifier (Some n')
                           (with_notifiers l (<[fd := ns1]> (m_notifiers l)))) w') =
          Some (true,
                with_notifiers l
                  (if isEmpty backup then delete fd (m_notifiers l)
                   else m_notifiers l))) as Hr.
  { rewrite (unregisterNotifier_occupied_result E w' _ n' ns1 n).
    - rewrite Hfd, Hty. fold fd. unfold ns1. rewrite (set_events_undo _ _ _ Hslot).
      cbn [with_notifiers m_notifiers m_wakeUpEvent m_msgWindow m_postman].
      do 3 f_equal. destruct (isEmpty backup) eqn:He.
      + by rewrite delete_insert_eq.
      + rewrite insert_insert_eq. apply insert_id.
        by apply interest_nonempty_lookup.
    - cbn [with_notifiers m_notifiers]. rewrite Hfd. apply lookup_insert_eq.
    - rewrite Hty. apply events_set_same. }
  split; [exact Hr|]. intros Hinv. rewrite Hr.
  destruct (isEmpty backup) eqn:He; [|by rewrite with_notifiers_id].
  destruct (m_notifiers l !! fd) as [ns|] eqn:Hl.
  - pose proof (Hinv fd ns Hl) as Hne. unfold backup, interest in He.
    rewrite Hl in He. simpl in He. congruence.
  - rewrite delete_id by done. by rewrite with_notifiers_id.
Qed.

Lemma register_then_unregister_witness :
  result (run scripted (registerNotifier (Some reader5) loop0) idle)
    = Some (true, loop_reader5) /\
  fileDescriptor reader5' = fileDescriptor reader5 /\
  type reader5' = type reader5 /\
  no_empty_record (m_notifiers loop0) /\
  result (run scripted (unregisterNotifier (Some reader5') loop_reader5) idle)
    = Some (true, loop0).
Proof.
  assert (result (run scripted (registerNotifier (Some reader5) loop0) idle)
          = Some (true, loop_reader5)) as H by reflexivity.
  assert (no_empty_record (m_notifiers loop0)) as Hinv.
  { intros fd ns Hl. cbn in Hl. by rewrite lookup_empty in Hl. }
  split; [exact H|]. do 2 (split; [reflexivity|]). split; [exact Hinv|].
  destruct (register_then_unregister scripted idle idle loop0 reader5 reader5'
              loop_reader5 H eq_refl eq_refl) as [_ Hr].
  exact (Hr Hinv).
Defined.

(** X6: when unregisterNotifier returns false it has made no call, and every
    descriptor has the observers it had: the slots the registry reports for
    each descriptor, an absent record counting as empty, are unchanged, and so
    are the handles and the postman. *)
Theorem unregisterNotifier_false_keeps_registrations (E : Env) (w : World E) l p l' :
  result (run E (unregisterNotifier p l) w) = Some (false, l') ->
  trace (run E (unregisterNotifier p l) w) = [] /\
  (forall fd, interest (m_notifiers l') fd = interest (m_notifiers l) fd) /\
  l' = with_notifiers l (m_notifiers l').
Proof.
  intros H. destruct p as [n|].
  2: { injection H as <-. by rewrite with_notifiers_id. }
  destruct (m_notifiers l !! fileDescriptor n) as [ns|] eqn:Hl.
  2: { rewrite (unregisterNotifier_no_record E w l n Hl) in H |- *.
       injection H as <-. split; [done|]. split; [|done].
       intros fd. cbn [with_notifiers m_notifiers].
       destruct (decide (fileDescriptor n = fd)) as [<-|Hne].
       - rewrite interest_insert. unfold interest. by rewrite Hl.
       - by apply interest_insert_ne. }
  destruct (events ns (static_cast_size_t (type n))) as [q|] eqn:Hslot.
  2: { rewrite (unregisterNotifier_empty_slot E w l n ns Hl Hslot) in H |- *.
       injection H as <-. by rewrite with_notifiers_id. }
  rewrite (unregisterNotifier_occupied_result E w l n ns q Hl Hslot) in H.
  congruence.
Qed.

Lemma unregisterNotifier_false_keeps_registrations_witness :
  (exists l',
     result (run scripted (unregisterNotifier (Some reader5) loop0) idle)
       = Some (false, l') /\
     forall fd, interest (m_notifiers l') fd = interest (m_notifiers loop0) fd).
Proof.
  eexists. split; [reflexivity|].
  refine (proj1 (proj2 (unregisterNotifier_false_keeps_registrations scripted idle
                          loop0 (Some reader5) _ _))).
  reflexivity.
Defined.

Lemma count_readiness_subscriptions l sockId err op :
  count is_WSAAsyncSelect (readiness_trace l sockId err op) = 0%nat.
Proof.
  unfold readiness_trace, delivery.
  destruct (nonzero err); [done|]. destruct (m_postman l); [|done].
  destruct (decodeCondition op); [|done]. by destruct (events _ _).
Qed.

(** X7: readiness dispatch never changes who is registered: after
    handleSocketMessage every descriptor has the observers it had (an absent
    record counting as empty), the handles and the postman are the same, and
    no subscription call was made. *)
Theorem handleSocketMessage_keeps_registrations
  (E : Env) (w : World E) wparam lparam l :
  exists l',
    result (run E (handleSocketMessage wparam lparam l) w) = Some l' /\
    (forall fd, interest (m_notifiers l') fd = interest (m_notifiers l) fd) /\
    l' = with_notifiers l (m_notifiers l') /\
    count is_WSAAsyncSelect (trace (run E (handleSocketMessage wparam lparam l) w))
      = 0%nat.
Proof.
  destruct (run_handleSocketMessage E w wparam lparam l) as [Ht Hr].
  cbv zeta in Ht, Hr. eexists. split; [exact Hr|].
  rewrite Ht, count_readiness_subscriptions.
  destruct (nonzero (WSAGETSELECTERROR lparam)).
  { by rewrite with_notifiers_id. }
  destruct (nonnull (m_postman l)); [|by rewrite with_notifiers_id].
  split; [|done]. intros fd. cbn [with_notifiers m_notifiers].
  destruct (decide (to_int wparam = fd)) as [<-|Hne].
  - apply interest_insert.
  - by apply interest_insert_ne.
Qed.

(** X8: unregisterNotifier does not look at which observer holds the slot.
    Called with any observer of the same descriptor and kind as the one
    registered, it returns true and empties the slot, and a readiness
    message of that kind for the descriptor is then delivered to nobody. *)
Theorem unregisterNotifier_by_another_observer
  (E : Env) (w w' : World E) l ns n1 n2 postman wparam c :
  m_notifiers l !! fileDescriptor n1 = Some ns ->
  events ns (static_cast_size_t (type n1)) = Some n1 ->
  fileDescriptor n2 = fileDescriptor n1 ->
  type n2 = type n1 ->
  to_int wparam = fileDescriptor n1 ->
  kindOf c = type n1 ->
  exists l',
    result (run E (unregisterNotifier (Some n2) l) w) = Some (true, l') /\
    events (interest (m_notifiers l') (fileDescriptor n1)) (static_cast_size_t (type n1))
      = None /\
    trace (run E (handleSocketMessage wparam (conditionCode c)
                    (setPostman (Some postman) l')) w') = [].
Proof.
  intros Hl Hslot Hfd Hty Hw Hc.
  assert (events (interest
                    (if isEmpty (set_events ns (static_cast_size_t (type n1)) None)
                     then delete (fileDescriptor n1) (m_notifiers l)
                     else <[fileDescriptor n1 :=
                              set_events ns (static_cast_size_t (type n1)) None]>
                            (m_notifiers l)) (fileDescriptor n1))
            (static_cast_size_t (type n1)) = None) as Hnone.
  { destruct (isEmpty _).
    - unfold interest. rewrite lookup_delete_eq. apply events_default.
    - rewrite interest_insert. apply events_set_same. }
  eexists. split.
  { rewrite (unregisterNotifier_occupied_result E w l n2 ns n1);
      rewrite ?Hfd, ?Hty; done. }
  cbn [with_notifiers m_notifiers]. split; [exact Hnone|].
  rewrite handleSocketMessage_routes, Hw, Hc.
  cbn [with_notifiers m_notifiers]. by rewrite Hnone.
Qed.

Lemma unregisterNotifier_by_another_observer_witness :
  m_notifiers loop_reader5 !! fileDescriptor reader5
    = Some (mkNotifierSet (Some reader5) None None) /\
  events (mkNotifierSet (Some reader5) None None) (static_cast_size_t (type reader5))
    = Some reader5 /\
  fileDescriptor reader5' = fileDescriptor reader5 /\
  type reader5' = type reader5 /\
  to_int 5 = fileDescriptor reader5 /\
  kindOf ReadReady = type reader5 /\
  exists l',
    result (run scripted (unregisterNotifier (Some reader5') loop_reader5) idle)
      = Some (true, l') /\
    trace (run scripted (handleSocketMessage 5 FD_READ
                           (setPostman (Some 7%positive) l')) idle) = [].
Proof.
  do 6 (split; [reflexivity|]).
  destruct (unregisterNotifier_by_another_observer scripted idle idle loop_reader5
              (mkNotifierSet (Some reader5) None None) reader5 reader5'
              7%positive 5 ReadReady eq_refl eq_refl eq_refl eq_refl eq_refl eq_refl)
    as (l' & Hr & _ & Ht).
  exists l'. split; [exact Hr | exact Ht].
Defined.

(** ** The subscription follows the registry *)

Lemma last_subscription_app t l fd ns r :
  last_subscription (t ++ Called (subscribe_call l fd ns) r :: subscribe_log fd r)
  = Some (fd, eventsToSubscribe ns).
Proof.
  unfold last_subscription. rewrite fold_left_app. unfold subscribe_log.
  by destruct (nonzero r).
Qed.

Lemma unregisterNotifier_occupied_trace (E : Env) (w : World E) l n ns p :
  m_notifiers l !! fileDescriptor n = Some ns ->
  events ns (static_cast_size_t (type n)) = Some p ->
  let fd := fileDescriptor n in
  let ns' := set_events ns (static_cast_size_t (type n)) None in
  let r := fst (answer E Z (subscribe_call l fd ns') w) in
  trace (run E (unregisterNotifier (Some n) l) w)
  = Called (subscribe_call l fd ns') r :: subscribe_log fd r.
Proof.
  intros H H0 fd ns' r. unfold unregisterNotifier, subscript.
  rewrite H, H0. cbn [nonnull]. fold fd ns'. rewrite run_bind.
  destruct (run_registerWithWSAAsyncSelect E l fd ns' w) as [Ht Hr].
  cbv zeta in Ht, Hr. rewrite Hr, Ht. cbn [run trace result world].
  by rewrite app_nil_r.
Qed.

Lemma interest_restored m fd :
  interest (if isEmpty (interest m fd) then delete fd m else m) fd = interest m fd.
Proof.
  destruct (isEmpty (interest m fd)) eqn:He; [|done].
  by apply interest_delete_empty.
Qed.

(** X9: whenever registerNotifier makes a subscription call, the last one
    it makes is for the observer's descriptor and carries the mask of the
    record the registry holds for it on return: the new record after a
    success, the restored one after a failure. *)
Theorem registerNotifier_subscription_in_sync (E : Env) (w : World E) l n b l' :
  result (run E (registerNotifier (Some n) l) w) = Some (b, l') ->
  let fd := fileDescriptor n in
  let t := trace (run E (registerNotifier (Some n) l) w) in
  (count is_WSAAsyncSelect t = 0%nat /\ last_subscription t = None) \/
  last_subscription t = Some (fd, eventsToSubscribe (interest (m_notifiers l') fd)).
Proof.
  intros H fd t. subst t.
  destruct (Z.lt_ge_cases (fileDescriptor n) 0) as [Hneg|Hfd].
  { left. unfold registerNotifier.
    by destruct (Z.ltb_spec (fileDescriptor n) 0); [|lia]. }
  destruct (events (interest (m_notifiers l) fd) (static_cast_size_t (type n)))
    as [q|] eqn:Hslot.
  { left. by rewrite (registerNotifier_occupied E w l n q Hfd Hslot). }
  right.
  set (ns1 := set_events (interest (m_notifiers l) fd)
                (static_cast_size_t (type n)) (Some n)).
  destruct (Z.eq_dec (fst (answer E Z (subscribe_call l fd ns1) w)) 0) as [H0|Hfail].
  - destruct (registerNotifier_success E w l n Hfd Hslot H0) as [Ht Hr].
    rewrite Hr in H. injection H as _ <-. rewrite Ht.
    cbn [with_notifiers m_notifiers]. by rewrite interest_insert.
  - destruct (registerNotifier_failure E w l n Hfd Hslot Hfail) as [Ht Hr].
    rewrite Hr in H. injection H as _ <-. rewrite Ht, last_subscription_app.
    cbn [with_notifiers m_notifiers]. by rewrite interest_restored.
Qed.

Lemma registerNotifier_subscription_in_sync_witness :
  result (run scripted (registerNotifier (Some reader5) loop0) failing_once)
    = Some (false, loop0) /\
  last_subscription (trace (run scripted (registerNotifier (Some reader5) loop0)
                              failing_once))
    = Some (5, 0).
Proof.
  assert (result (run scripted (registerNotifier (Some reader5) loop0) failing_once)
          = Some (false, loop0)) as H by reflexivity.
  split; [exact H|].
  destruct (registerNotifier_subscription_in_sync scripted failing_once loop0
              reader5 false loop0 H) as [[_ Hn]|Hs].
  - discriminate Hn.
  - exact Hs.
Defined.

(** X10: when unregisterNotifier returns true, its subscription call is for
    the observer's descriptor and carries the mask of the record the registry
    holds for it on return, zero when the record is gone. *)
Theorem unregisterNotifier_subscription_in_sync (E : Env) (w : World E) l n l' :
  result (run E (unregisterNotifier (Some n) l) w) = Some (true, l') ->
  let fd := fileDescriptor n in
  last_subscription (trace (run E (unregisterNotifier (Some n) l) w))
    = Some (fd, eventsToSubscribe (interest (m_notifiers l') fd)) /\
  (m_notifiers l' !! fd = None ->
   last_subscription (trace (run E (unregisterNotifier (Some n) l) w)) = Some (fd, 0)).
Proof.
  intros H fd.
  destruct (m_notifiers l !! fileDescriptor n) as [ns|] eqn:Hl.
  2: { by rewrite (unregisterNotifier_no_record E w l n Hl) in H. }
  destruct (events ns (static_cast_size_t (type n))) as [q|] eqn:Hslot.
  2: { by rewrite (unregisterNotifier_empty_slot E w l n ns Hl Hslot) in H. }
  rewrite (unregisterNotifier_occupied_result E w l n ns q Hl Hslot) in H.
  injection H as <-.
  rewrite (unregisterNotifier_occupied_trace E w l n ns q Hl Hslot).
  pose proof (last_subscription_app [] l fd
                (set_events ns (static_cast_size_t (type n)) None)
                (fst (answer E Z (subscribe_call l fd
                        (set_events ns (static_cast_size_t (type n)) None)) w)))
    as Hls.
  cbn [app] in Hls. fold fd. rewrite Hls.
  cbn [with_notifiers m_notifiers].
  destruct (isEmpty (set_events ns (static_cast_size_t (type n)) None)) eqn:He.
  - apply isEmpty_is_default in He. rewrite He. unfold interest.
    by rewrite lookup_delete_eq.
  - rewrite interest_insert. split; [done|]. by rewrite lookup_insert_eq.
Qed.

Lemma unregisterNotifier_subscription_in_sync_witness :
  result (run scripted (unregisterNotifier (Some reader5) loop_reader5) idle)
    = Some (true, loop0) /\
  last_subscription (trace (run scripted (unregisterNotifier (Some reader5)
                                            loop_reader5) idle))
    = Some (5, 0).
Proof.
  assert (result (run scripted (unregisterNotifier (Some reader5) loop_reader5) idle)
          = Some (true, loop0)) as H by reflexivity.
  split; [exact H|].
  exact (proj1 (unregisterNotifier_subscription_in_sync scripted idle loop_reader5
                  reader5 loop0 H)).
Defined.

(** X11: occupying a slot adds the bits of its kind to the mask of a record
    and nothing else; emptying a slot removes the bits of its kind and leaves
    those of the other kinds. *)
Theorem mask_follows_slots ns (k : NotificationType) n :
  eventsToSubscribe (set_events ns (static_cast_size_t k) (Some n))
    = Z.lor (eventsToSubscribe ns) (typeToWsaEvents k) /\
  eventsToSubscribe (set_events ns (static_cast_size_t k) None)
    = Z.land (eventsToSubscribe ns) (Z.lnot (typeToWsaEvents k)).
Proof. by destruct ns as [[?|] [?|] [?|]], k. Qed.

(** ** Further properties of waitForEvents *)

(** X12: when the first poll finds nothing, waitForEvents waits with a
    timeout that is the caller's value reduced modulo 2^32.  A value from 0
    to 2^32 - 1 is passed as it is and -1 becomes INFINITE; every other
    negative value of an [int] becomes a wait of at least 2^31 milliseconds,
    not an immediate return. *)
Theorem waitForEvents_timeout_conversion (E : Env) (w : World E) NDEBUG timeout l :
  fst (answer E _ poll w) = None ->
  let h := m_wakeUpEvent l in
  let d := timeout mod 4294967296 in
  let waited := answer E _ (wait_call l timeout) (snd (answer E _ poll w)) in
  (exists rest,
     trace (run E (waitForEvents NDEBUG timeout l) w)
       = Called poll None :: Called (wait_call l timeout) (fst waited) :: rest) /\
  wait_call l timeout
    = MsgWaitForMultipleObjects (if nonzero h then 1 else 0)
        (if nonzero h then [h] else []) false d QS_ALLINPUT /\
  (0 <= timeout < 4294967296 -> d = timeout) /\
  (timeout = -1 -> d = INFINITE) /\
  (-2147483648 <= timeout < 0 -> 2147483648 <= d).
Proof.
  intros Hp h d waited. destruct (run_waitForEvents E w NDEBUG timeout l) as [Ht _].
  cbv zeta in Ht. rewrite Hp in Ht.
  split; [eexists; exact Ht|].
  assert (dwTimeout timeout = d) as Hd.
  { unfold dwTimeout, to_DWORD, INFINITE, d.
    destruct (Z.eqb_spec timeout (-1)) as [->|]; done. }
  split; [unfold wait_call; by rewrite Hd|].
  split; [intros; by apply Z.mod_small|].
  split; [by intros ->|].
  intros Hneg. unfold d. rewrite <- (Z.mod_add timeout 1 4294967296) by lia.
  rewrite Z.mod_small; lia.
Qed.

Lemma waitForEvents_timeout_conversion_witness :
  fst (answer scripted _ poll timing_out) = None /\
  exists rest,
    trace (run scripted (waitForEvents false (-2) degraded_loop) timing_out)
      = Called poll None
        :: Called (MsgWaitForMultipleObjects 0 [] false 4294967294 QS_ALLINPUT)
             WAIT_TIMEOUT
        :: rest.
Proof.
  assert (fst (answer scripted _ poll timing_out) = None) as H by reflexivity.
  split; [exact H|].
  destruct (waitForEvents_timeout_conversion scripted timing_out false (-2)
              degraded_loop H) as ((rest & Ht) & _).
  exists rest. exact Ht.
Defined.

Lemma no_quit_dispatch_trace msg : forallb no_quit_dispatch (dispatch_trace msg) = true.
Proof.
  unfold dispatch_trace. destruct (message msg =? WM_QUIT) eqn:Hq; [done|].
  simpl. by rewrite Hq.
Qed.

(** X13: a quit message is never passed on.  No run of waitForEvents calls
    DispatchMessage with a WM_QUIT message, and when the first poll takes a
    WM_QUIT message off the queue the call returns at once: the poll is its
    only call. *)
Theorem waitForEvents_drops_quit (E : Env) (w : World E) NDEBUG timeout l :
  forallb no_quit_dispatch (trace (run E (waitForEvents NDEBUG timeout l) w)) = true /\
  (forall msg,
     fst (answer E _ poll w) = Some msg ->
     message msg = WM_QUIT ->
     trace (run E (waitForEvents NDEBUG timeout l) w) = [Called poll (Some msg)] /\
     result (run E (waitForEvents NDEBUG timeout l) w) = Some tt).
Proof.
  destruct (run_waitForEvents E w NDEBUG timeout l) as [Ht Hr].
  cbv zeta in Ht, Hr. split.
  - rewrite Ht. destruct (fst (answer E _ poll w)) as [msg|].
    { cbn [forallb no_quit_dispatch poll]. apply no_quit_dispatch_trace. }
    destruct (fst (answer E Z (wait_call l timeout) _) =? WAIT_OBJECT_0).
    { by destruct (NDEBUG || nonzero (m_wakeUpEvent l)). }
    cbn [forallb no_quit_dispatch poll wait_call andb].
    destruct (fst (answer E _ poll _)) as [msg|]; [|done].
    apply no_quit_dispatch_trace.
  - intros msg Hp Hq. rewrite Ht, Hr, Hp. unfold dispatch_trace.
    by rewrite Hq.
Qed.

Lemma waitForEvents_drops_quit_witness :
  fst (answer scripted _ poll quitting) = Some quit_msg /\
  message quit_msg = WM_QUIT /\
  trace (run scripted (waitForEvents false 0 loop0) quitting)
    = [Called poll (Some quit_msg)].
Proof.
  split; [reflexivity|]. split; [reflexivity|].
  destruct (waitForEvents_drops_quit scripted quitting false 0 loop0) as [_ H].
  exact (proj1 (H quit_msg eq_refl eq_refl)).
Defined.

(** X14: on a loop without its wake-up event, a waitForEvents whose first
    poll finds nothing and whose wait does not answer WAIT_OBJECT_0 (a
    timeout, say) returns: it waits on no handle, polls again, dispatches the
    message it finds, if any, and makes no call on the null handle. *)
Theorem waitForEvents_no_event_timeout (E : Env) (w : World E) NDEBUG timeout l :
  m_wakeUpEvent l = NULL ->
  fst (answer E _ poll w) = None ->
  let waited :=
    answer E _ (MsgWaitForMultipleObjects 0 [] false (dwTimeout timeout) QS_ALLINPUT)
      (snd (answer E _ poll w)) in
  fst waited <> WAIT_OBJECT_0 ->
  let second := answer E _ poll (snd waited) in
  result (run E (waitForEvents NDEBUG timeout l) w) = Some tt /\
  trace (run E (waitForEvents NDEBUG timeout l) w)
    = [Called poll None;
       Called (MsgWaitForMultipleObjects 0 [] false (dwTimeout timeout) QS_ALLINPUT)
         (fst waited);
       Called poll (fst second)] ++ dispatch_trace_opt (fst second).
Proof.
  intros Hh Hp waited Hw second.
  destruct (run_waitForEvents E w NDEBUG timeout l) as [Ht Hr].
  cbv zeta in Ht, Hr. rewrite Hp in Ht, Hr.
  rewrite (wait_call_no_event l timeout Hh) in Ht, Hr. fold waited in Ht, Hr.
  destruct (Z.eqb_spec (fst waited) WAIT_OBJECT_0) as [|_]; [done|].
  by rewrite Hr, Ht.
Qed.

Lemma waitForEvents_no_event_timeout_witness :
  m_wakeUpEvent degraded_loop = NULL /\
  fst (answer scripted _ poll timing_out) = None /\
  fst (answer scripted _
         (MsgWaitForMultipleObjects 0 [] false (dwTimeout 1000) QS_ALLINPUT)
         (snd (answer scripted _ poll timing_out))) <> WAIT_OBJECT_0 /\
  result (run scripted (waitForEvents false 1000 degraded_loop) timing_out) = Some tt /\
  trace (run scripted (waitForEvents false 1000 degraded_loop) timing_out)
    = [Called poll None;
       Called (MsgWaitForMultipleObjects 0 [] false 1000 QS_ALLINPUT) WAIT_TIMEOUT;
       Called poll None].
Proof.
  assert (fst (answer scripted _
                 (MsgWaitForMultipleObjects 0 [] false (dwTimeout 1000) QS_ALLINPUT)
                 (snd (answer scripted _ poll timing_out))) <> WAIT_OBJECT_0) as H
    by (vm_compute; discriminate).
  split; [reflexivity|]. split; [reflexivity|]. split; [exact H|].
  exact (waitForEvents_no_event_timeout scripted timing_out false 1000 degraded_loop
           eq_refl eq_refl H).
Defined.

(** ** The window procedure and the constructor *)

(** X15: the window procedure reads the pointer to the loop back from the
    window on every message, and uses it for the socket message only.  Any
    other message goes to DefWindowProc with the same arguments, whose answer
    is returned; no loop is touched, whatever the pointer is.  For the socket
    message with the pointer of a loop, the calls that follow are those of
    readiness dispatch on that loop, the answer is 0, DefWindowProc is not
    called, that loop keeps its registrations and no other loop is touched;
    with a pointer at which there is no loop the run stops after the read. *)
Theorem messageWindowProc_routes (E : Env) (w : World E) heap hwnd msgId wp lp :
  let o := run E (messageWindowProc heap hwnd msgId wp lp) w in
  let got := answer E Z (GetWindowLongPtr hwnd GWLP_USERDATA) w in
  let loop := fst got in
  if msgId =? WM_KD_SOCKETEVENT
  then match heap !! loop with
       | Some l =>
           trace o = Called (GetWindowLongPtr hwnd GWLP_USERDATA) loop
                     :: readiness_trace l (to_int wp) (WSAGETSELECTERROR lp)
                          (WSAGETSELECTEVENT lp) /\
           exists l',
             result o = Some (0, <[loop := l']> heap) /\
             (forall fd, interest (m_notifiers l') fd = interest (m_notifiers l) fd) /\
             l' = with_notifiers l (m_notifiers l')
       | None =>
           trace o = [Called (GetWindowLongPtr hwnd GWLP_USERDATA) loop] /\
           result o = None
       end
  else let r := fst (answer E Z (DefWindowProc hwnd msgId wp lp) (snd got)) in
       trace o = [Called (GetWindowLongPtr hwnd GWLP_USERDATA) loop;
                  Called (DefWindowProc hwnd msgId wp lp) r] /\
       result o = Some (r, heap).
Proof.
  intros o got loop. subst o. unfold messageWindowProc.
  cbn [bind call run trace result world]. fold got. fold loop.
  destruct (msgId =? WM_KD_SOCKETEVENT); [|done].
  destruct (heap !! loop) as [l|]; [|done].
  rewrite run_bind.
  destruct (run_handleSocketMessage E (snd got) wp lp l) as [Ht Hr].
  cbv zeta in Ht, Hr. rewrite Hr, Ht. cbn [run trace result world].
  rewrite app_nil_r. split; [done|].
  eexists. split; [reflexivity|].
  destruct (nonzero (WSAGETSELECTERROR lp)); [by rewrite with_notifiers_id|].
  destruct (nonnull (m_postman l)); [|by rewrite with_notifiers_id].
  split; [|done]. intros fd. cbn [with_notifiers m_notifiers].
  destruct (decide (to_int wp = fd)) as [<-|Hne].
  - apply interest_insert.
  - by apply interest_insert_ne.
Qed.

(** X16: the constructor goes on after each failure.  Whatever the system
    answers it makes the same five calls in the same order, CreateWindow with
    the module handle it has just fetched and SetWindowLongPtr on the window
    it has just got, logs one critical line for each of the three creations
    that failed and nothing else, and returns a loop with an empty registry,
    no postman and the two handles as it got them, null or not. *)
Theorem constructor_continues_degraded (E : Env) (w : World E) :
  let o := run E Win32PlatformEventLoop_new w in
  exists h atom inst hwnd,
    List.filter (fun c => negb (is_spdlog c)) (trace o)
      = [Called (CreateEvent true false) h;
         Called (RegisterClass s_msgWindowClassName) atom;
         Called GetModuleHandle0 inst;
         Called (CreateWindow s_msgWindowClassName HWND_MESSAGE inst) hwnd;
         Called (SetWindowLongPtr hwnd GWLP_USERDATA) tt] /\
    result o = Some (mkLoop ∅ h hwnd None) /\
    count is_critical (trace o)
      = ((if nonzero h then 0 else 1) + (if nonzero atom then 0 else 1)
         + (if nonzero hwnd then 0 else 1))%nat /\
    count is_spdlog (trace o) = count is_critical (trace o).
Proof.
  intros o. subst o. unfold Win32PlatformEventLoop_new, count.
  cbn [bind call run trace result world].
  repeat (match goal with
          | |- context [nonzero ?x] => destruct (nonzero x) eqn:?
          end;
          cbn [bind call run trace result world]);
    eexists _, _, _, _;
    (split; [cbn; rewrite ?unit_answer; reflexivity|]);
    (split; [reflexivity|]);
    repeat match goal with H : nonzero _ = _ |- _ => rewrite H end;
    split; reflexivity.
Qed.

(** ** The window classes of the GUI integration *)

Lemma grun_gbind (E : GEnv) {A B : Type} (p : GProg A) (f : A -> GProg B) (w : GWorld E) :
  grun E (gbind p f) w =
  let o1 := grun E p w in
  let o2 := grun E (f (gresult o1)) (gworld o1) in
  mkGOutcome (gtrace o1 ++ gtrace o2) (gworld o2) (gresult o2).
Proof.
  revert w; induction p as [r | X e k IH]; intros w; simpl.
  - by destruct (grun E (f r) w).
  - by rewrite IH.
Qed.

Lemma gunit_answer (E : GEnv) (e : guiE unit) (w : GWorld E) :
  fst (ganswer E unit e w) = tt.
Proof. by destruct (fst (ganswer E unit e w)). Qed.

(** X17: registerWindowClass records the class name whether or not the
    registration succeeds.  For a name it already has it returns true without
    a call.  For a new name it calls RegisterClassEx once, returns whether
    the atom is nonzero and logs one critical line when it is zero; the name
    is in the set afterwards in both cases, so a second registration of the
    name, with any style and procedure, returns true without a call even
    when the first one failed. *)
Theorem registerWindowClass_records_name
  (E : GEnv) (w w' : GWorld E) className style proc style' proc' s :
  let o := grun E (registerWindowClass className style proc s) w in
  let a1 := ganswer E _ GetModuleHandle w in
  let a2 := ganswer E _ (LoadCursorW IDC_ARROW) (snd a1) in
  let a3 := ganswer E _ (LoadImage IDI_APPLICATION IMAGE_ICON 0 0
                           (Z.lor LR_DEFAULTSIZE LR_SHARED)) (snd a2) in
  let atom :=
    fst (ganswer E _
           (RegisterClassEx
              (mkWNDCLASSEX style proc (fst a1) (fst a2) className (fst a3)))
           (snd a3)) in
  snd (gresult o) = {[ className ]} ∪ s /\
  fst (gresult o) = (if bool_decide (className ∈ s) then true else nonzero atom) /\
  length (List.filter is_RegisterClassEx (gtrace o))
    = (if bool_decide (className ∈ s) then 0 else 1)%nat /\
  length (List.filter is_gui_critical (gtrace o))
    = (if bool_decide (className ∈ s) then 0 else if nonzero atom then 0 else 1)%nat /\
  (className ∈ s -> gtrace o = []) /\
  grun E (registerWindowClass className style' proc' (snd (gresult o))) w'
    = mkGOutcome [] w' (true, snd (gresult o)).
Proof.
  intros o a1 a2 a3 atom.
  assert (snd (gresult o) = {[ className ]} ∪ s) as Hset.
  { subst o. unfold registerWindowClass.
    destruct (bool_decide_reflect (className ∈ s)) as [Hin|Hin]; simpl.
    - symmetry. by apply subseteq_union_1_L, singleton_subseteq_l.
    - fold a1 a2 a3 atom. by destruct (nonzero atom). }
  split; [exact Hset|].
  split; [|split; [|split; [|split]]].
  - subst o. unfold registerWindowClass.
    destruct (bool_decide_reflect (className ∈ s)); simpl; [done|].
    fold a1 a2 a3 atom. by destruct (nonzero atom).
  - subst o. unfold registerWindowClass.
    destruct (bool_decide_reflect (className ∈ s)); simpl; [done|].
    fold a1 a2 a3 atom. by destruct (nonzero atom).
  - subst o. unfold registerWindowClass.
    destruct (bool_decide_reflect (className ∈ s)); simpl; [done|].
    fold a1 a2 a3 atom. by destruct (nonzero atom).
  - intros Hin. subst o. unfold registerWindowClass.
    by rewrite bool_decide_eq_true_2.
  - rewrite Hset. unfold registerWindowClass.
    rewrite bool_decide_eq_true_2; [done|].
    by apply elem_of_union_l, elem_of_singleton_2.
Qed.

Lemma run_unregisterEach (E : GEnv) (w : GWorld E) inst names :
  let t := gtrace (grun E (unregisterEach inst names) w) in
  map (fun x => fst (fst x)) (unregistered t) = names /\
  Forall (fun x => snd (fst x) = inst) (unregistered t) /\
  length (List.filter is_gui_critical t)
    = length (List.filter (fun x => negb (snd x)) (unregistered t)).
Proof.
  revert w; induction names as [|name rest IH]; intros w; [done|].
  cbn [unregisterEach gbind gcall grun gtrace gresult gworld].
  destruct (fst (ganswer E bool (UnregisterClass name inst) w)) eqn:Hok.
  - cbn [gbind]. destruct (IH (snd (ganswer E bool (UnregisterClass name inst) w)))
      as (Hn & Hi & Hc).
    cbn [unregistered flat_map app map fst snd List.filter is_gui_critical negb].
    fold (unregistered
            (gtrace (grun E (unregisterEach inst rest)
                       (snd (ganswer E bool (UnregisterClass name inst) w))))).
    split; [by rewrite Hn|]. split; [by constructor|]. exact Hc.
  - cbn [gbind gcall grun gtrace gresult gworld].
    match goal with
    | |- context [grun E (unregisterEach inst rest) ?w1] =>
        destruct (IH w1) as (Hn & Hi & Hc);
        fold (unregistered (gtrace (grun E (unregisterEach inst rest) w1))) in *
    end.
    cbn [unregistered flat_map app map fst snd List.filter is_gui_critical negb length].
    match goal with
    | |- context [grun E (unregisterEach inst rest) ?w1] =>
        fold (unregistered (gtrace (grun E (unregisterEach inst rest) w1)))
    end.
    split; [by rewrite Hn|]. split; [by constructor|]. by rewrite Hc.
Qed.

(** X18: unregisterWindowClasses calls UnregisterClass once for every name
    of the set and for nothing else, each time with the module handle it
    asked for first, logs one critical line for each call that fails, and
    leaves the set empty whether or not the calls succeed. *)
Theorem unregisterWindowClasses_all (E : GEnv) (w : GWorld E) s :
  let o := grun E (unregisterWindowClasses s) w in
  let inst := fst (ganswer E _ GetModuleHandle w) in
  let names := map (fun x => fst (fst x)) (unregistered (gtrace o)) in
  gresult o = ∅ /\
  names ≡ₚ elements s /\
  base.NoDup names /\
  (forall name, name ∈ names <-> name ∈ s) /\
  Forall (fun x => snd (fst x) = inst) (unregistered (gtrace o)) /\
  length (List.filter is_gui_critical (gtrace o))
    = length (List.filter (fun x => negb (snd x)) (unregistered (gtrace o))).
Proof.
  intros o inst names. subst o names. unfold unregisterWindowClasses.
  cbn [gbind gcall grun gtrace gresult gworld]. fold inst.
  rewrite grun_gbind. cbn [grun gtrace gresult gworld]. rewrite app_nil_r.
  destruct (run_unregisterEach E (snd (ganswer E _ GetModuleHandle w)) inst (elements s))
    as (Hn & Hi & Hc).
  cbv zeta in Hn, Hi, Hc.
  cbn [unregistered flat_map app List.filter is_gui_critical].
  match goal with
  | |- context [grun E (unregisterEach inst (elements s)) ?w1] =>
      fold (unregistered (gtrace (grun E (unregisterEach inst (elements s)) w1)))
  end.
  rewrite Hn. split; [done|]. split; [done|]. split; [apply NoDup_elements|].
  split; [intros name; apply elem_of_elements|]. split; [exact Hi | exact Hc].
Qed.

(** X19: the calls of the destructor are, in this order: CloseHandle on the
    wake-up event when it is not null, DestroyWindow on the message window
    when it is not null, GetModuleHandle, UnregisterClass for the class of
    the message window with the handle just fetched, and one logged line
    when that call fails.  So CloseHandle gets the wake-up event and nothing
    else, DestroyWindow the message window and nothing else, and neither is
    ever given a null handle. *)
Theorem destructor_releases_what_exists (E : GEnv) (w : GWorld E) l :
  let o := grun E (Win32PlatformEventLoop_delete l) w in
  (exists b1 b2 inst ok,
     gtrace o
     = (if nonzero (m_wakeUpEvent l)
        then [GCalled (CloseHandle (m_wakeUpEvent l)) b1] else [])
       ++ (if nonzero (m_msgWindow l)
           then [GCalled (DestroyWindow (m_msgWindow l)) b2] else [])
       ++ [GCalled GetModuleHandle inst;
           GCalled (UnregisterClass s_msgWindowClassName inst) ok]
       ++ (if ok then []
           else [GCalled (gui_spdlog warn "Failed to unregister message window class" [])
                   tt])) /\
  closed (gtrace o) = (if nonzero (m_wakeUpEvent l) then [m_wakeUpEvent l] else []) /\
  destroyed (gtrace o) = (if nonzero (m_msgWindow l) then [m_msgWindow l] else []) /\
  Forall (fun h => h <> NULL) (closed (gtrace o) ++ destroyed (gtrace o)).
Proof.
  intros o. subst o. unfold Win32PlatformEventLoop_delete.
  assert (forall x, nonzero x = true -> x <> NULL) as Hnz.
  { intros x Hx ->. discriminate Hx. }
  destruct (nonzero (m_wakeUpEvent l)) eqn:H1, (nonzero (m_msgWindow l)) eqn:H2;
    cbn [gbind gcall grun gtrace gresult gworld];
    match goal with
    | |- context [ganswer E bool (UnregisterClass ?n ?i) ?w1] =>
        destruct (fst (ganswer E bool (UnregisterClass n i) w1)) eqn:Hok
    end;
    cbn [gbind gcall grun gtrace gresult gworld closed destroyed flat_map app];
    rewrite ?gunit_answer;
    lazymatch type of Hok with
    | _ = ?v => split; [eexists _, _, _, v; reflexivity|]
    end;
    (split; [reflexivity|]);
    (split; [reflexivity|]);
    repeat (apply Forall_cons; [by apply Hnz|]); apply Forall_nil.
  Unshelve. all: exact true.
Qed.

(** ** The scenario of the socket test *)

Lemma handleSocketMessage_delivers (E : Env) (w : World E) l postman wparam c ns target :
  m_postman l = Some postman ->
  m_notifiers l !! to_int wparam = Some ns ->
  events ns (static_cast_size_t (kindOf c)) = Some target ->
  trace (run E (handleSocketMessage wparam (conditionCode c) l) w)
    = [Called (deliverEvent postman target NotifierEvent) tt] /\
  result (run E (handleSocketMessage wparam (conditionCode c) l) w) = Some l.
Proof.
  intros Hp Hl Hs.
  destruct (run_handleSocketMessage E w wparam (conditionCode c) l) as [Ht Hr].
  cbv zeta in Ht, Hr. rewrite Ht, Hr.
  destruct (select_reply_code c) as [-> ->].
  unfold readiness_trace, delivery. cbn [nonzero Z.eqb negb].
  rewrite Hp, decodeCondition_code, (interest_lookup _ _ _ Hl), Hs.
  cbn [nonnull]. split; [done|].
  by rewrite insert_id, with_notifiers_id.
Qed.

Lemma registerNotifier_fresh_slot (E : Env) (w : World E) l n :
  0 <= fileDescriptor n ->
  events (interest (m_notifiers l) (fileDescriptor n)) (static_cast_size_t (type n))
    = None ->
  subscribes_ok E w ->
  result (run E (registerNotifier (Some n) l) w) =
    Some (true,
          with_notifiers l
            (<[fileDescriptor n :=
                 set_events (interest (m_notifiers l) (fileDescriptor n))
                   (static_cast_size_t (type n)) (Some n)]> (m_notifiers l))).
Proof.
  intros Hfd Hslot Hok.
  by destruct (registerNotifier_success E w l n Hfd Hslot (Hok _ _ _ _)) as [_ Hr].
Qed.

(** X20: the scenario of the socket test, for any descriptor without a
    record, on a loop with a postman and a system whose subscription calls
    succeed.  Registering a reader and unregistering it gives back the loop
    of before; a second reader and a writer then both register; after that a
    connection-established and a write-ready message are each delivered to
    the writer, a read-ready message to the second reader, and nothing is
    delivered to the reader that was unregistered. *)
Theorem socket_watch_scenario
  (E : Env) (w1 w2 w3 w4 w5 w6 w7 : World E) l fd au ar awr postman wparam :
  let u := mkNotifier au fd Read in
  let r := mkNotifier ar fd Read in
  let wr := mkNotifier awr fd Write in
  let l1 := with_notifiers l (<[fd := mkNotifierSet (Some u) None None]> (m_notifiers l)) in
  let l3 := with_notifiers l (<[fd := mkNotifierSet (Some r) None None]> (m_notifiers l)) in
  let l4 :=
    with_notifiers l (<[fd := mkNotifierSet (Some r) (Some wr) None]> (m_notifiers l)) in
  0 <= fd ->
  to_int wparam = fd ->
  m_notifiers l !! fd = None ->
  m_postman l = Some postman ->
  subscribes_ok E w1 ->
  subscribes_ok E w3 ->
  subscribes_ok E w4 ->
  result (run E (registerNotifier (Some u) l) w1) = Some (true, l1) /\
  result (run E (unregisterNotifier (Some u) l1) w2) = Some (true, l) /\
  result (run E (registerNotifier (Some r) l) w3) = Some (true, l3) /\
  result (run E (registerNotifier (Some wr) l3) w4) = Some (true, l4) /\
  run E (handleSocketMessage wparam FD_CONNECT l4) w5
    = mkOutcome [Called (deliverEvent postman wr NotifierEvent) tt]
        (world (run E (handleSocketMessage wparam FD_CONNECT l4) w5)) (Some l4) /\
  run E (handleSocketMessage wparam FD_WRITE l4) w6
    = mkOutcome [Called (deliverEvent postman wr NotifierEvent) tt]
        (world (run E (handleSocketMessage wparam FD_WRITE l4) w6)) (Some l4) /\
  run E (handleSocketMessage wparam FD_READ l4) w7
    = mkOutcome [Called (deliverEvent postman r NotifierEvent) tt]
        (world (run E (handleSocketMessage wparam FD_READ l4) w7)) (Some l4).
Proof.
  intros u r wr l1 l3 l4 Hfd Hw Hnone Hp Hok1 Hok3 Hok4.
  assert (interest (m_notifiers l) fd = NotifierSet_default) as Hi.
  { unfold interest. by rewrite Hnone. }
  assert (forall (w : World E) c target,
            events (mkNotifierSet (Some r) (Some wr) None)
              (static_cast_size_t (kindOf c)) = Some target ->
            run E (handleSocketMessage wparam (conditionCode c) l4) w
            = mkOutcome [Called (deliverEvent postman target NotifierEvent) tt]
                (world (run E (handleSocketMessage wparam (conditionCode c) l4) w))
                (Some l4)) as Hdeliver.
  { intros w c target Hs.
    destruct (handleSocketMessage_delivers E w l4 postman wparam c
                (mkNotifierSet (Some r) (Some wr) None) target) as [Ht Hr];
      [done | by rewrite Hw; apply lookup_insert_eq | exact Hs |].
    destruct (run E (handleSocketMessage wparam (conditionCode c) l4) w).
    simpl in *. by subst. }
  split.
  { rewrite (registerNotifier_fresh_slot E w1 l u); cbn [fileDescriptor type u];
      rewrite ?Hi; done. }
  split.
  { rewrite (unregisterNotifier_occupied_result E w2 l1 u
               (mkNotifierSet (Some u) None None) u);
      [| apply lookup_insert_eq | done].
    cbn [fileDescriptor type u static_cast_size_t set_events isEmpty events0 events1
         events2 nonnull orb negb l1 with_notifiers m_notifiers m_wakeUpEvent
         m_msgWindow m_postman].
    rewrite delete_insert_eq, delete_id by done. by destruct l. }
  split.
  { rewrite (registerNotifier_fresh_slot E w3 l r); cbn [fileDescriptor type r];
      rewrite ?Hi; done. }
  split.
  { rewrite (registerNotifier_fresh_slot E w4 l3 wr); cbn [fileDescriptor type wr];
      unfold l3; cbn [with_notifiers m_notifiers]; rewrite ?interest_insert; try done.
    cbn [static_cast_size_t set_events events0 events1 events2].
    by rewrite insert_insert_eq. }
  split; [exact (Hdeliver w5 ConnectionEstablished wr eq_refl)|].
  split; [exact (Hdeliver w6 WriteReady wr eq_refl)|].
  exact (Hdeliver w7 ReadReady r eq_refl).
Qed.

Lemma socket_watch_scenario_witness :
  0 <= 5 /\
  to_int 5 = 5 /\
  m_notifiers (setPostman (Some 7%positive) loop0) !! 5 = None /\
  m_postman (setPostman (Some 7%positive) loop0) = Some 7%positive /\
  subscribes_ok scripted idle /\
  trace (run scripted
           (handleSocketMessage 5 FD_CONNECT
              (with_notifiers (setPostman (Some 7%positive) loop0)
                 (<[5 := mkNotifierSet (Some (mkNotifier 2 5 Read))
                           (Some (mkNotifier 3 5 Write)) None]> ∅))) idle)
    = [Called (deliverEvent 7%positive (mkNotifier 3 5 Write) NotifierEvent) tt].
Proof.
  assert (subscribes_ok scripted idle) as Hok by (intros s h m ev; reflexivity).
  assert (0 <= 5) as H5 by lia.
  split; [exact H5|]. do 3 (split; [reflexivity|]). split; [exact Hok|].
  destruct (socket_watch_scenario scripted idle idle idle idle idle idle idle
              (setPostman (Some 7%positive) loop0) 5 1%positive 2%positive 3%positive
              7%positive 5 H5 eq_refl eq_refl eq_refl Hok Hok Hok)
    as (_ & _ & _ & _ & Hc & _).
  exact (f_equal trace Hc).
Defined.

(** ** The invariant of the registry, known class names, unknown event codes *)

(** X5: a registry without empty records stays so through registerNotifier,
    whatever it returns, and through an unregisterNotifier that returns
    true. *)
Theorem no_empty_record_kept (E : Env) (w : World E) l p b l' :
  no_empty_record (m_notifiers l) ->
  result (run E (registerNotifier p l) w) = Some (b, l') \/
  result (run E (unregisterNotifier p l) w) = Some (true, l') ->
  no_empty_record (m_notifiers l').
Proof.
  intros Hinv [H|H].
  - exact (registerNotifier_keeps_no_empty_record E w l p b l' Hinv H).
  - exact (unregisterNotifier_true_keeps_no_empty_record E w l p l' Hinv H).
Qed.

Lemma no_empty_record_kept_witness :
  no_empty_record (m_notifiers loop_reader5) /\
  result (run scripted (unregisterNotifier (Some reader5) loop_reader5) idle)
    = Some (true, loop0) /\
  no_empty_record (m_notifiers loop0).
Proof.
  assert (no_empty_record (m_notifiers loop_reader5)) as Hinv.
  { intros fd ns Hl. cbn in Hl. apply lookup_singleton_Some in Hl as [_ <-]. done. }
  assert (result (run scripted (unregisterNotifier (Some reader5) loop_reader5) idle)
          = Some (true, loop0)) as H by reflexivity.
  split; [exact Hinv|]. split; [exact H|].
  exact (no_empty_record_kept scripted idle loop_reader5 (Some reader5) true loop0
           Hinv (or_intror H)).
Defined.

Lemma registerWindowClass_records_name_witness :
  "KDGuiWindow"%string ∈ ({[ "KDGuiWindow"%string ]} : gset string) /\
  gtrace (grun gscripted
            (registerWindowClass "KDGuiWindow" 3 1 {[ "KDGuiWindow"%string ]})
            (mkGScript [0] [])) = [].
Proof.
  assert ("KDGuiWindow"%string ∈ ({[ "KDGuiWindow"%string ]} : gset string)) as H
    by (by apply elem_of_singleton_2).
  split; [exact H|].
  destruct (registerWindowClass_records_name gscripted (mkGScript [0] [])
              (mkGScript [0] []) "KDGuiWindow" 3 1 3 1 {[ "KDGuiWindow"%string ]})
    as (_ & _ & _ & _ & Hin & _).
  exact (Hin H).
Defined.

(** X21: readiness dispatch matches the event code of a message against the
    six condition codes one by one.  A message without error whose code is
    none of them, the or of two of them for instance, is dropped without a
    call, whoever is registered. *)
Theorem handleSocketMessage_unknown_code_dropped
  (E : Env) (w : World E) wparam lparam l :
  WSAGETSELECTERROR lparam = 0 ->
  m_postman l <> None ->
  decodeCondition (WSAGETSELECTEVENT lparam) = None ->
  trace (run E (handleSocketMessage wparam lparam l) w) = [] /\
  decodeCondition (Z.lor FD_READ FD_CLOSE) = None.
Proof.
  intros Herr Hp Hop.
  destruct (run_handleSocketMessage E w wparam lparam l) as [Ht _].
  cbv zeta in Ht. rewrite Ht. unfold readiness_trace, delivery.
  rewrite Herr, Hop. cbn [nonzero Z.eqb negb].
  by destruct (m_postman l).
Qed.

Lemma handleSocketMessage_unknown_code_dropped_witness :
  WSAGETSELECTERROR 33 = 0 /\
  m_postman (setPostman (Some 7%positive) loop_reader5) <> None /\
  decodeCondition (WSAGETSELECTEVENT 33) = None /\
  trace (run scripted (handleSocketMessage 5 33
                         (setPostman (Some 7%positive) loop_reader5)) idle) = [].
Proof.
  assert (m_postman (setPostman (Some 7%positive) loop_reader5) <> None) as Hp
    by discriminate.
  split; [reflexivity|]. split; [exact Hp|]. split; [reflexivity|].
  exact (proj1 (handleSocketMessage_unknown_code_dropped scripted idle 5 33
                  (setPostman (Some 7%positive) loop_reader5) eq_refl Hp eq_refl)).
Defined.

(** ** Queue input on a loop without its wake-up event *)

(** C4: a waitForEvents call on the loop built without its wake-up event,
    with an empty queue at the first poll and a message arriving during the
    wait.  The wait is on no handle and ends for queue activity, which it
    reports as WAIT_OBJECT_0 + 0.  The call takes that for the wake-up
    event: in a build with assertions it stops on its assertion; in a build
    without, it calls ResetEvent on the null handle and returns without the
    second poll, so the message stays in the queue and nothing is
    dispatched.  On a loop that has the event the same arrival is followed
    by the second poll and the dispatch of the message. *)
Theorem waitForEvents_queue_input_taken_for_signal :
  m_wakeUpEvent degraded_loop = NULL /\
  wait_outcome 0 (WAIT_OBJECT_0 + 0) = QueueActivity /\
  result (run scripted (waitForEvents false 1000 degraded_loop) input_during_wait)
    = None /\
  trace (run scripted (waitForEvents true 1000 degraded_loop) input_during_wait)
    = [Called poll None;
       Called (MsgWaitForMultipleObjects 0 [] false 1000 QS_ALLINPUT)
         (WAIT_OBJECT_0 + 0);
       Called (ResetEvent NULL) false] /\
  peeks (world (run scripted (waitForEvents true 1000 degraded_loop) input_during_wait))
    = [Some socket_msg] /\
  count is_DispatchMessage
    (trace (run scripted (waitForEvents true 1000 degraded_loop) input_during_wait))
    = 0%nat /\
  wait_outcome 1 (WAIT_OBJECT_0 + 1) = QueueActivity /\
  trace (run scripted (waitForEvents true 1000 loop0) input_during_wait_with_event)
    = [Called poll None;
       Called (MsgWaitForMultipleObjects 1 [100] false 1000 QS_ALLINPUT)
         (WAIT_OBJECT_0 + 1);
       Called poll (Some socket_msg);
       Called (TranslateMessage socket_msg) tt;
       Called (DispatchMessage socket_msg) tt].
Proof.
  split; [reflexivity|]. split; [reflexivity|]. split; [reflexivity|].
  split; [reflexivity|]. split; [reflexivity|]. split; [reflexivity|].
  split; reflexivity.
Qed.
